(** * Batch anonymization over lists and dictionaries

    A shallow embedding of [BatchAnonymizerEngine] from
    [docs/samples/python/batch_processing.ipynb]: the two methods
    [anonymize_list] and [anonymize_dict] layered on the single-text
    [AnonymizerEngine.anonymize], which stays an external collaborator.

    Python values are dynamically typed, so they are embedded as one type of
    objects ([pyobj]) with the run-time tests the methods perform on them
    ([type], [isinstance], truthiness, [len], iteration).  Exceptions and
    the calls made to the external anonymizer are threaded through a small
    monad ([M]): a computation carries the log of the calls it made and
    either a value or the exception that stopped it. *)

From Stdlib Require Import ZArith List String Ascii Bool Lia.
From Stdlib Require Import Floats.SpecFloat.
From Stdlib Require Import DecimalString.
Import ListNotations.

Local Open Scope string_scope.
Local Open Scope list_scope.

(** ** Python objects *)

(** The objects the two methods can meet.  A [set] is kept as the list of its
    elements in iteration order; a [dict] as its items in insertion order
    (keys are strings, as in JSON-like data and in the returned dict). *)
#[local] Unset Elimination Schemes.
Inductive pyobj : Type :=
| PNone
| PBool (b : bool)
| PInt (z : Z)
| PFloat (f : spec_float)
| PStr (s : string)
| PList (l : list pyobj)
| PTuple (l : list pyobj)
| PSet (l : list pyobj)
| PDict (d : list (string * pyobj))
| PRecognizerResult (entity_type : string) (start end_ : Z) (score : spec_float)
| PDictAnalyzerResult (key : string) (value : pyobj) (recognizer_results : pyobj).
#[local] Set Elimination Schemes.

Definition pydict : Type := list (string * pyobj).

(** Induction on objects, through the lists they hold. *)

Section pyobj_induction.

Variable P : pyobj -> Prop.
Hypothesis P_None : P PNone.
Hypothesis P_Bool : forall b, P (PBool b).
Hypothesis P_Int : forall z, P (PInt z).
Hypothesis P_Float : forall f, P (PFloat f).
Hypothesis P_Str : forall s, P (PStr s).
Hypothesis P_List : forall l, Forall P l -> P (PList l).
Hypothesis P_Tuple : forall l, Forall P l -> P (PTuple l).
Hypothesis P_Set : forall l, Forall P l -> P (PSet l).
Hypothesis P_Dict : forall d, Forall (fun kv => P (snd kv)) d -> P (PDict d).
Hypothesis P_RecognizerResult : forall t s e c, P (PRecognizerResult t s e c).
Hypothesis P_DictAnalyzerResult :
  forall k v rr, P v -> P rr -> P (PDictAnalyzerResult k v rr).

Fixpoint pyobj_nested_ind (o : pyobj) : P o :=
  let fix all (l : list pyobj) : Forall P l :=
    match l with
    | [] => Forall_nil P
    | x :: l' => Forall_cons x (pyobj_nested_ind x) (all l')
    end in
  match o with
  | PNone => P_None
  | PBool b => P_Bool b
  | PInt z => P_Int z
  | PFloat f => P_Float f
  | PStr s => P_Str s
  | PList l => P_List l (all l)
  | PTuple l => P_Tuple l (all l)
  | PSet l => P_Set l (all l)
  | PDict d =>
      P_Dict d
        ((fix alld (d : list (string * pyobj))
            : Forall (fun kv => P (snd kv)) d :=
            match d with
            | [] => Forall_nil _
            | kv :: d' =>
                Forall_cons kv (pyobj_nested_ind (snd kv)) (alld d')
            end) d)
  | PRecognizerResult t s e c => P_RecognizerResult t s e c
  | PDictAnalyzerResult k v rr =>
      P_DictAnalyzerResult k v rr (pyobj_nested_ind v) (pyobj_nested_ind rr)
  end.

End pyobj_induction.

Inductive pyclass : Type :=
| c_NoneType | c_bool | c_int | c_float | c_str
| c_list | c_tuple | c_set | c_dict
| c_RecognizerResult | c_DictAnalyzerResult.

Definition pyclass_eqb (a b : pyclass) : bool :=
  match a, b with
  | c_NoneType, c_NoneType | c_bool, c_bool | c_int, c_int
  | c_float, c_float | c_str, c_str | c_list, c_list
  | c_tuple, c_tuple | c_set, c_set | c_dict, c_dict
  | c_RecognizerResult, c_RecognizerResult
  | c_DictAnalyzerResult, c_DictAnalyzerResult => true
  | _, _ => false
  end.

(** [type(o)] *)
Definition type (o : pyobj) : pyclass :=
  match o with
  | PNone => c_NoneType
  | PBool _ => c_bool
  | PInt _ => c_int
  | PFloat _ => c_float
  | PStr _ => c_str
  | PList _ => c_list
  | PTuple _ => c_tuple
  | PSet _ => c_set
  | PDict _ => c_dict
  | PRecognizerResult _ _ _ _ => c_RecognizerResult
  | PDictAnalyzerResult _ _ _ => c_DictAnalyzerResult
  end.

(** [type(o) in classes] *)
Definition type_in (o : pyobj) (classes : list pyclass) : bool :=
  existsb (pyclass_eqb (type o)) classes.

Arguments type_in : simpl never.

(** [isinstance(o, c)] for the two classes the code tests, [dict] and [str]
    (no object of the model belongs to a subclass of either). *)
Definition isinstance (o : pyobj) (c : pyclass) : bool :=
  pyclass_eqb (type o) c.

Arguments isinstance : simpl never.

(** [isinstance(o, collections.abc.Iterable)]: strings and dicts are
    iterable too. *)
Definition isinstance_Iterable (o : pyobj) : bool :=
  match o with
  | PStr _ | PList _ | PTuple _ | PSet _ | PDict _ => true
  | _ => false
  end.

(** Truth value of an object, as tested by [not o]. *)
Definition truthy (o : pyobj) : bool :=
  match o with
  | PNone => false
  | PBool b => b
  | PInt z => negb (Z.eqb z 0)
  | PFloat (S754_zero _) => false
  | PFloat _ => true
  | PStr s => negb (String.eqb s "")
  | PList l | PTuple l | PSet l => match l with [] => false | _ => true end
  | PDict d => match d with [] => false | _ => true end
  | PRecognizerResult _ _ _ _ => true
  | PDictAnalyzerResult _ _ _ => true
  end.

(** ** Exceptions and results *)

(** The exceptions at hand: [TypeError] and [AttributeError] are what Python
    raises on an object that is not iterable, has no length or lacks an
    attribute; [ValueError] is Python's invalid-argument error;
    [InvalidParamError] is the anonymizer's own; [OtherError] stands for any
    other class. *)
Inductive exn : Type :=
| TypeError
| AttributeError
| ValueError
| InvalidParamError
| OtherError (name : string).

Inductive result (A : Type) : Type :=
| Ok (a : A)
| Raise (e : exn).
Arguments Ok {A} a.
Arguments Raise {A} e.

Definition is_ok {A} (r : result A) : bool :=
  match r with Ok _ => true | Raise _ => false end.

(** [len(o)] *)
Definition len (o : pyobj) : result nat :=
  match o with
  | PStr s => Ok (String.length s)
  | PList l | PTuple l | PSet l => Ok (List.length l)
  | PDict d => Ok (List.length d)
  | _ => Raise TypeError
  end.

Fixpoint chars (s : string) : list pyobj :=
  match s with
  | EmptyString => []
  | String c s' => PStr (String c EmptyString) :: chars s'
  end.

(** The elements [for x in o] goes through: a string yields its characters,
    a dict its keys. *)
Definition iter (o : pyobj) : result (list pyobj) :=
  match o with
  | PStr s => Ok (chars s)
  | PList l | PTuple l | PSet l => Ok l
  | PDict d => Ok (map (fun kv => PStr (fst kv)) d)
  | _ => Raise TypeError
  end.

(** [d[k] = v] on an insertion-ordered dict: an existing key keeps its
    position and takes the new value, a new key goes last. *)
Fixpoint dict_set (d : pydict) (k : string) (v : pyobj) : pydict :=
  match d with
  | [] => [(k, v)]
  | (k', v') :: d' =>
      if String.eqb k' k then (k, v) :: d' else (k', v') :: dict_set d' k v
  end.

(** [d.get(k)] *)
Fixpoint dict_get (d : pydict) (k : string) : option pyobj :=
  match d with
  | [] => None
  | (k', v') :: d' => if String.eqb k' k then Some v' else dict_get d' k
  end.

Definition keys (d : pydict) : list string := map fst d.

(** ** The external anonymizer's result *)

Module OperatorResult.
Record t : Type := mk {
  start : Z;
  end_ : Z;
  entity_type : string;
  text : string;
  operator : string
}.
End OperatorResult.

(** [presidio_anonymizer.entities.EngineResult]; the methods read [text]
    only. *)
Module EngineResult.
Record t : Type := mk {
  text : string;
  items : list OperatorResult.t
}.
End EngineResult.

(** ** Computations: call log and exceptions *)

(** One call [self.anonymize(text=..., analyzer_results=..., **kwargs)]. *)
Record call : Type := mkCall {
  call_text : pyobj;
  call_analyzer_results : pyobj;
  call_kwargs : pydict
}.

Definition M (A : Type) : Type := (list call * result A)%type.

Definition ret {A} (a : A) : M A := ([], Ok a).
Definition raise {A} (e : exn) : M A := ([], Raise e).
Definition lift {A} (r : result A) : M A := ([], r).

Definition bind {A B} (m : M A) (f : A -> M B) : M B :=
  match m with
  | (log, Ok a) => let (log', r) := f a in (log ++ log', r)
  | (log, Raise e) => (log, Raise e)
  end.

Notation "x <- m ;; k" := (bind m (fun x => k))
  (at level 61, m at next level, right associativity).

Arguments ret : simpl never.
Arguments raise : simpl never.
Arguments lift : simpl never.
Arguments bind : simpl never.

(** The calls a computation made, and how it ended. *)
Definition calls {A} (m : M A) : list call := fst m.
Definition outcome {A} (m : M A) : result A := snd m.

(** A call [self.method(p1=..., ..., **kwargs)] of a method with the given
    parameters: a key of [kwargs] that names one of them gives that argument
    a second value, a [TypeError] raised before the method runs. *)
Definition keyword_clash (parameters : list string) (kwargs : pydict) : bool :=
  existsb (fun k => existsb (String.eqb k) parameters) (keys kwargs).

Definition method_call {A} (parameters : list string) (kwargs : pydict)
    (body : M A) : M A :=
  if keyword_clash parameters kwargs then raise TypeError else body.

Definition anonymize_list_parameters : list string :=
  ["self"; "texts"; "recognizer_results_list"].

Definition anonymize_dict_parameters : list string :=
  ["self"; "analyzer_results"].

(** [str(z)] for an integer [z]. *)
Definition Z_str (z : Z) : string :=
  NilZero.string_of_int (Z.to_int z).

(** ** Stand-ins for the external collaborators, for running the model *)

Fixpoint insert_span (x : string * Z * Z) (l : list (string * Z * Z))
    : list (string * Z * Z) :=
  match l with
  | [] => [x]
  | y :: l' =>
      if (snd (fst y) <=? snd (fst x))%Z then x :: l else y :: insert_span x l'
  end.

Definition replace_span (s : string) (x : string * Z * Z) : result string :=
  let '(entity_type, start, end_) := x in
  if ((0 <=? start) && (start <=? end_)
      && (end_ <=? Z.of_nat (String.length s)))%Z
  then
    Ok (substring 0 (Z.to_nat start) s ++ "<" ++ entity_type ++ ">"
        ++ substring (Z.to_nat end_) (String.length s - Z.to_nat end_) s)%string
  else Raise InvalidParamError.

Fixpoint replace_spans (s : string) (l : list (string * Z * Z))
    : result string :=
  match l with
  | [] => Ok s
  | x :: l' =>
      match replace_span s x with
      | Ok s' => replace_spans s' l'
      | Raise e => Raise e
      end
  end.

Fixpoint spans_of (l : list pyobj) : result (list (string * Z * Z)) :=
  match l with
  | [] => Ok []
  | PRecognizerResult entity_type start end_ _ :: l' =>
      match spans_of l' with
      | Ok r => Ok (insert_span (entity_type, start, end_) r)
      | Raise e => Raise e
      end
  | _ :: _ => Raise AttributeError
  end.

(** Modelled from the spec: the single-text anonymizer of the library
    ([AnonymizerEngine.anonymize], not part of the notebook) with its default
    strategy: every detected span, taken from the right end of the text to
    the left, is replaced by the placeholder [<ENTITY_TYPE>]; malformed
    offsets are an error.  Overlapping spans are not resolved. *)
Definition placeholder_anonymize (text analyzer_results : pyobj)
    (kwargs : pydict) : result EngineResult.t :=
  match text, iter analyzer_results with
  | PStr s, Ok l =>
      match spans_of l with
      | Ok spans =>
          match replace_spans s spans with
          | Ok s' => Ok (EngineResult.mk s' [])
          | Raise e => Raise e
          end
      | Raise e => Raise e
      end
  | _, _ => Raise TypeError
  end.

(** [str] of a float, exact on zeros, infinities, nan and on integral values
    [m * 2^e] with [0 <= e] below [10^16]. *)
Definition float_repr_integral (f : spec_float) : string :=
  match f with
  | S754_zero false => "0.0"
  | S754_zero true => "-0.0"
  | S754_infinity false => "inf"
  | S754_infinity true => "-inf"
  | S754_nan => "nan"
  | S754_finite s m e =>
      ((if s then "-" else "") ++ Z_str (Z.pos m * 2 ^ e) ++ ".0")%string
  end.

(** ** Sample data: the inputs of the notebook *)

Definition score_085 : spec_float := S754_finite false 7656119366529843 (-53).
Definition score_075 : spec_float := S754_finite false 3 (-2).

Definition name_phrases : list pyobj :=
  [PStr "Morris likes this"; PStr "You should talk to Mike";
   PStr "Mary had a little startup"].

Definition name_phrase_results : list pyobj :=
  [PList [PRecognizerResult "PERSON" 0 6 score_085];
   PList [PRecognizerResult "PERSON" 19 23 score_085];
   PList []].

Definition integers : list pyobj := [PInt 1; PInt 2; PInt 3].

Definition no_results : list pyobj := [PList []; PList []; PList []].

Definition key_a1_result : pyobj :=
  PDictAnalyzerResult "key_a1" (PStr "My phone number is 212-121-1424")
    (PList [PRecognizerResult "PHONE_NUMBER" 19 31 score_075]).

Definition key_a_result : pyobj :=
  PDictAnalyzerResult "key_a"
    (PDict [("key_a1", PStr "My phone number is 212-121-1424")])
    (PList [key_a1_result]).

Definition key_b_result : pyobj :=
  PDictAnalyzerResult "key_b" (PSet [PStr "www.abc.com"])
    (PList [PList [PRecognizerResult "URL" 0 11 score_085]]).

Definition key_c_result : pyobj :=
  PDictAnalyzerResult "key_c" (PInt 3) (PList []).

Definition names_result : pyobj :=
  PDictAnalyzerResult "names"
    (PList [PStr "James Bond"; PStr "Clark Kent"; PStr "Hakeem Olajuwon";
            PStr "No name here!"])
    (PList [PList [PRecognizerResult "PERSON" 0 10 score_085];
            PList [PRecognizerResult "PERSON" 0 10 score_085];
            PList [PRecognizerResult "PERSON" 0 15 score_085];
            PList []]).

(** The analyzer results for [nested_dict]. *)
Definition nested_dict_results : list pyobj :=
  [key_a_result; key_b_result; key_c_result; names_result].

(** A span that ends beyond the end of its text. *)
Definition malformed_results : pyobj :=
  PList [PRecognizerResult "PERSON" 0 99 score_085].

Definition malformed_call : call :=
  mkCall (PStr "You should talk to Mike") malformed_results [].

(** The objects within a list of the note that closes the notebook. *)
Definition objects_in_list : list pyobj :=
  [PDict [("key2", PStr "Peter Parker")]; PDict [("key3", PStr "555-1234")]].

(** Analyzer results in which a key comes twice. *)
Definition repeated_key_results : list pyobj :=
  [PDictAnalyzerResult "a" (PInt 1) (PList []);
   PDictAnalyzerResult "b" (PStr "Mike") (PList []);
   PDictAnalyzerResult "a" (PInt 2) (PList [])].

(** [nested_dict] itself, and its analyzer results when nothing is
    detected. *)
Definition nested_dict : pyobj :=
  PDict [("key_a", PDict [("key_a1", PStr "My phone number is 212-121-1424")]);
         ("key_b", PSet [PStr "www.abc.com"]);
         ("key_c", PInt 3);
         ("names", PList [PStr "James Bond"; PStr "Clark Kent";
                          PStr "Hakeem Olajuwon"; PStr "No name here!"])].

Definition nested_dict_no_results : list pyobj :=
  [PDictAnalyzerResult "key_a"
     (PDict [("key_a1", PStr "My phone number is 212-121-1424")])
     (PList [PDictAnalyzerResult "key_a1"
               (PStr "My phone number is 212-121-1424") (PList [])]);
   PDictAnalyzerResult "key_b" (PSet [PStr "www.abc.com"])
     (PList [PList []]);
   PDictAnalyzerResult "key_c" (PInt 3) (PList []);
   PDictAnalyzerResult "names"
     (PList [PStr "James Bond"; PStr "Clark Kent"; PStr "Hakeem Olajuwon";
             PStr "No name here!"])
     (PList [])].

Section BatchAnonymizerEngine.

(** [AnonymizerEngine.anonymize], inherited by the class: what the call
    [self.anonymize(text=..., analyzer_results=..., **kwargs)] gives for a
    text, analyzer results and keyword arguments, an [EngineResult] or an
    exception. *)
Variable anonymize : pyobj -> pyobj -> pydict -> result EngineResult.t.

(** [str(x)] for a float [x]. *)
Variable float_repr : spec_float -> string.

(** [str(o)], for the four classes [anonymize_list] applies it to. *)
Definition str (o : pyobj) : string :=
  match o with
  | PStr s => s
  | PBool true => "True"
  | PBool false => "False"
  | PInt z => Z_str z
  | PFloat f => float_repr f
  | _ => "<object>"
  end.

Definition self_anonymize (text analyzer_results : pyobj) (kwargs : pydict)
  : M EngineResult.t :=
  ([mkCall text analyzer_results kwargs],
   anonymize text analyzer_results kwargs).

Arguments self_anonymize : simpl never.

(** The body of [for text, recognizer_results in zip(...)], over the pairs
    [zip] yields. *)
Fixpoint anonymize_list_loop (pairs : list (pyobj * pyobj)) (kwargs : pydict)
    (return_list : list pyobj) : M (list pyobj) :=
  match pairs with
  | [] => ret return_list
  | (text, recognizer_results) :: rest =>
      if type_in text [c_str; c_bool; c_int; c_float] then
        res <- self_anonymize (PStr (str text)) recognizer_results kwargs ;;
        anonymize_list_loop rest kwargs
          (return_list ++ [PStr (EngineResult.text res)])
      else
        anonymize_list_loop rest kwargs (return_list ++ [text])
  end.

Definition anonymize_list (texts recognizer_results_list : pyobj)
    (kwargs : pydict) : M (list pyobj) :=
  recognizer_results_list <-
    (if negb (truthy recognizer_results_list) then
       n <- lift (len texts) ;;
       ret (PList (repeat (PList []) n))
     else ret recognizer_results_list) ;;
  ts <- lift (iter texts) ;;
  rs <- lift (iter recognizer_results_list) ;;
  anonymize_list_loop (combine ts rs) kwargs [].

Fixpoint anonymize_dict (analyzer_results : pyobj) (kwargs : pydict)
    {struct analyzer_results} : M pydict :=
  let fix loop (results : list pyobj) (return_dict : pydict)
      {struct results} : M pydict :=
    match results with
    | [] => ret return_dict
    | result :: rest =>
        match result with
        | PDictAnalyzerResult key value recognizer_results =>
            if isinstance value c_dict then
              resp <- method_call anonymize_dict_parameters kwargs
                        (anonymize_dict recognizer_results kwargs) ;;
              loop rest (dict_set return_dict key (PDict resp))
            else if isinstance value c_str then
              resp <- self_anonymize value recognizer_results kwargs ;;
              loop rest
                (dict_set return_dict key (PStr (EngineResult.text resp)))
            else if isinstance_Iterable value then
              anonymize_respones <-
                method_call anonymize_list_parameters kwargs
                  (anonymize_list value recognizer_results kwargs) ;;
              loop rest (dict_set return_dict key (PList anonymize_respones))
            else
              loop rest (dict_set return_dict key value)
        | _ => raise AttributeError
        end
    end in
  match analyzer_results with
  | PList results | PTuple results | PSet results => loop results []
  | _ =>
      (* a str or a dict yields strings, which have no attribute [value] *)
      results <- lift (iter analyzer_results) ;;
      match results with
      | [] => ret []
      | _ :: _ => raise AttributeError
      end
  end.

(** The loop of [anonymize_dict] as a function of its own. *)
Fixpoint anonymize_dict_loop (results : list pyobj) (kwargs : pydict)
    (return_dict : pydict) {struct results} : M pydict :=
  match results with
  | [] => ret return_dict
  | result :: rest =>
      match result with
      | PDictAnalyzerResult key value recognizer_results =>
          if isinstance value c_dict then
            resp <- method_call anonymize_dict_parameters kwargs
                      (anonymize_dict recognizer_results kwargs) ;;
            anonymize_dict_loop rest kwargs
              (dict_set return_dict key (PDict resp))
          else if isinstance value c_str then
            resp <- self_anonymize value recognizer_results kwargs ;;
            anonymize_dict_loop rest kwargs
              (dict_set return_dict key (PStr (EngineResult.text resp)))
          else if isinstance_Iterable value then
            anonymize_respones <-
              method_call anonymize_list_parameters kwargs
                (anonymize_list value recognizer_results kwargs) ;;
            anonymize_dict_loop rest kwargs
              (dict_set return_dict key (PList anonymize_respones))
          else
            anonymize_dict_loop rest kwargs (dict_set return_dict key value)
      | _ => raise AttributeError
      end
  end.

(** What one iteration stores under [result.key]. *)
Definition anonymize_value (value recognizer_results : pyobj)
    (kwargs : pydict) : M pyobj :=
  if isinstance value c_dict then
    resp <- method_call anonymize_dict_parameters kwargs
              (anonymize_dict recognizer_results kwargs) ;;
    ret (PDict resp)
  else if isinstance value c_str then
    resp <- self_anonymize value recognizer_results kwargs ;;
    ret (PStr (EngineResult.text resp))
  else if isinstance_Iterable value then
    anonymize_respones <-
      method_call anonymize_list_parameters kwargs
        (anonymize_list value recognizer_results kwargs) ;;
    ret (PList anonymize_respones)
  else ret value.

(** *** Vocabulary of the statements *)

(** How the external anonymizer answers a logged call. *)
Definition call_outcome (c : call) : result EngineResult.t :=
  anonymize (call_text c) (call_analyzer_results c) (call_kwargs c).

(** No call of the log raised. *)
Definition no_raise (log : list call) : bool :=
  forallb (fun c => is_ok (call_outcome c)) log.

(** Fail-fast: either no call of the computation raised, or exactly the last
    one did and its exception is the outcome of the computation. *)
Definition fail_fast {A} (m : M A) : Prop :=
  no_raise (calls m) = true \/
  exists log c e,
    calls m = log ++ [c] /\ no_raise log = true /\
    call_outcome c = Raise e /\ outcome m = Raise e.

(** The computation raises nothing of its own: an exception it ends with was
    raised by one of its calls to the anonymizer. *)
Definition external_only {A} (m : M A) : Prop :=
  forall e, outcome m = Raise e ->
    exists c, In c (calls m) /\ call_outcome c = Raise e.

(** The span collections [zip] pairs with [n] texts: one empty collection per
    text when [recognizer_results_list] is falsy, its elements otherwise. *)
Definition spans_for (n : nat) (recognizer_results_list : pyobj)
  : result (list pyobj) :=
  if negb (truthy recognizer_results_list) then Ok (repeat (PList []) n)
  else iter recognizer_results_list.

(** [spans_for] on a list. *)
Definition paired_spans (n : nat) (rrl : list pyobj) : list pyobj :=
  match rrl with [] => repeat (PList []) n | _ :: _ => rrl end.

(** What [anonymize_list] puts at the position of [text]: the anonymizer's
    text for [str(text)] when [text] is a str, bool, int or float, [text]
    itself otherwise. *)
Definition leaf_output (kwargs : pydict) (text recognizer_results o : pyobj)
  : Prop :=
  if type_in text [c_str; c_bool; c_int; c_float] then
    exists res,
      anonymize (PStr (str text)) recognizer_results kwargs = Ok res /\
      o = PStr (EngineResult.text res)
  else o = text.

(** [result.key], [result.value] and [result.recognizer_results] of a
    [DictAnalyzerResult]. *)
Definition node_key (result : pyobj) : string :=
  match result with PDictAnalyzerResult key _ _ => key | _ => "" end.

Definition node_value (result : pyobj) : pyobj :=
  match result with PDictAnalyzerResult _ value _ => value | _ => PNone end.

Definition node_recognizer_results (result : pyobj) : pyobj :=
  match result with PDictAnalyzerResult _ _ rr => rr | _ => PNone end.

(** An annotated node: a [DictAnalyzerResult] whose [recognizer_results]
    have the shape its [value] calls for: a sequence of annotated nodes for a
    dict, anything the anonymizer takes for a str, an iterable (or a falsy
    object) for another iterable. *)
Fixpoint annotated (o : pyobj) : bool :=
  match o with
  | PDictAnalyzerResult _ value recognizer_results =>
      if isinstance value c_dict then
        match recognizer_results with
        | PList l | PTuple l | PSet l => forallb annotated l
        | _ => false
        end
      else if isinstance value c_str then true
      else if isinstance_Iterable value then
        negb (truthy recognizer_results)
        || isinstance_Iterable recognizer_results
      else true
  | _ => false
  end.

(** Keyword arguments [anonymize_dict] can pass on to the two methods: none
    of them names a parameter of the method called. *)
Definition forwardable (kwargs : pydict) : bool :=
  negb (keyword_clash anonymize_dict_parameters kwargs)
  && negb (keyword_clash anonymize_list_parameters kwargs).

(** The elements of an object that can be iterated over, none otherwise. *)
Definition items (o : pyobj) : list pyobj :=
  match iter o with Ok l => l | Raise _ => [] end.

(** A list, tuple or set of annotated nodes. *)
Definition annotated_nodes (o : pyobj) : bool :=
  match o with
  | PList l | PTuple l | PSet l => forallb annotated l
  | _ => false
  end.

(** [v] is what an iteration of the loop of [anonymize_dict] stores for the
    node [result]. *)
Definition node_output (kwargs : pydict) (result v : pyobj) : Prop :=
  type result = c_DictAnalyzerResult /\
  outcome (anonymize_value (node_value result)
             (node_recognizer_results result) kwargs) = Ok v.

(** What the loop of [anonymize_dict] has built after [results], each with
    the [values] computed for it. *)
Fixpoint store_all (return_dict : pydict) (results values : list pyobj)
  : pydict :=
  match results, values with
  | result :: results', v :: values' =>
      store_all (dict_set return_dict (node_key result) v) results' values'
  | _, _ => return_dict
  end.

(** *** Vocabulary of the further statements *)

(** The four classes [anonymize_list] hands to the anonymizer. *)
Definition leaf (text : pyobj) : bool :=
  type_in text [c_str; c_bool; c_int; c_float].

(** The call [anonymize_list] makes for a pair of [zip]. *)
Definition leaf_call (kwargs : pydict) (p : pyobj * pyobj) : call :=
  mkCall (PStr (str (fst p))) (snd p) kwargs.

(** Every call of the computation passes a str as text and [kwargs] as
    keyword arguments. *)
Definition passes {A} (kwargs : pydict) (m : M A) : Prop :=
  forall c, In c (calls m) ->
    type (call_text c) = c_str /\ call_kwargs c = kwargs.

(** The keys of [ks] not among [seen], each once, in the order of their first
    occurrence. *)
Fixpoint first_occurrences (seen ks : list string) : list string :=
  match ks with
  | [] => []
  | k :: ks' =>
      if existsb (String.eqb k) seen then first_occurrences seen ks'
      else k :: first_occurrences (seen ++ [k]) ks'
  end.

Definition is_empty_list (o : pyobj) : bool :=
  match o with PList [] => true | _ => false end.

(** A node in which nothing was detected, at any depth: the span collection
    of a str is the empty list; for another iterable no span collections are
    given, or one empty list per element; the nodes of a dict are of that
    kind too. *)
Fixpoint undetected (o : pyobj) : bool :=
  match o with
  | PDictAnalyzerResult _ value recognizer_results =>
      if isinstance value c_dict then
        match recognizer_results with
        | PList l | PTuple l | PSet l => forallb undetected l
        | _ => false
        end
      else if isinstance value c_str then is_empty_list recognizer_results
      else if isinstance_Iterable value then
        negb (truthy recognizer_results)
        || match recognizer_results with
           | PList l =>
               forallb is_empty_list l
               && Nat.eqb (List.length l) (List.length (items value))
           | _ => false
           end
      else true
  | _ => false
  end.

Definition undetected_nodes (o : pyobj) : bool :=
  match o with
  | PList l | PTuple l | PSet l => forallb undetected l
  | _ => false
  end.

(** An element of a list as it comes out when nothing is detected in it. *)
Definition plain_leaf (text : pyobj) : pyobj :=
  if leaf text then PStr (str text) else text.

(** The value of a node as it comes out when nothing is detected in it: a
    dict is rebuilt from its nodes, a str is itself, the elements of another
    iterable are listed, those of the four classes in string form. *)
Fixpoint plain (o : pyobj) : pyobj :=
  match o with
  | PDictAnalyzerResult _ value recognizer_results =>
      if isinstance value c_dict then
        match recognizer_results with
        | PList l | PTuple l | PSet l => PDict (store_all [] l (map plain l))
        | _ => PNone
        end
      else if isinstance value c_str then value
      else if isinstance_Iterable value then
        PList (map plain_leaf (items value))
      else value
  | _ => PNone
  end.

(** ** Properties *)

(** *** Computations *)

Lemma bind_ret {A B} (a : A) (f : A -> M B) : bind (ret a) f = f a.
Proof. unfold bind, ret. destruct (f a); reflexivity. Qed.

Lemma bind_lift_Ok {A B} (a : A) (f : A -> M B) : bind (lift (Ok a)) f = f a.
Proof. apply bind_ret. Qed.

Lemma bind_lift_Raise {A B} (e : exn) (f : A -> M B) :
  bind (lift (Raise e)) f = raise e.
Proof. reflexivity. Qed.

Lemma bind_assoc {A B C} (m : M A) (f : A -> M B) (g : B -> M C) :
  bind (bind m f) g = bind m (fun a => bind (f a) g).
Proof.
  unfold bind. destruct m as [log [a | e]]; [| reflexivity].
  destruct (f a) as [log' [b | e]]; [| reflexivity].
  destruct (g b) as [log'' r]. now rewrite app_assoc.
Qed.

Lemma outcome_bind {A B} (m : M A) (f : A -> M B) :
  outcome (bind m f) =
  match outcome m with Ok a => outcome (f a) | Raise e => Raise e end.
Proof.
  unfold bind, outcome. destruct m as [log [a | e]]; simpl; [| reflexivity].
  destruct (f a); reflexivity.
Qed.

Lemma calls_bind {A B} (m : M A) (f : A -> M B) :
  calls (bind m f) =
  calls m ++ match outcome m with Ok a => calls (f a) | Raise _ => [] end.
Proof.
  unfold bind, calls, outcome. destruct m as [log [a | e]]; simpl.
  - destruct (f a); reflexivity.
  - now rewrite app_nil_r.
Qed.

Lemma no_raise_app (l1 l2 : list call) :
  no_raise (l1 ++ l2) = no_raise l1 && no_raise l2.
Proof. apply forallb_app. Qed.

Lemma no_raise_In (log : list call) (c : call) :
  no_raise log = true -> In c log -> exists r, call_outcome c = Ok r.
Proof.
  unfold no_raise. rewrite forallb_forall. intros H Hin.
  specialize (H c Hin). destruct (call_outcome c); [eauto | discriminate].
Qed.

Lemma fail_fast_ret {A} (a : A) : fail_fast (ret a).
Proof. now left. Qed.

Lemma fail_fast_lift {A} (r : result A) : fail_fast (lift r).
Proof. now left. Qed.

Lemma fail_fast_self_anonymize text rr kw :
  fail_fast (self_anonymize text rr kw).
Proof.
  unfold fail_fast, self_anonymize, no_raise, call_outcome. simpl.
  destruct (anonymize text rr kw) as [r | e] eqn:E.
  - left. reflexivity.
  - right. exists [], (mkCall text rr kw), e. simpl. auto.
Qed.

Lemma fail_fast_Ok {A} (m : M A) (a : A) :
  fail_fast m -> outcome m = Ok a -> no_raise (calls m) = true.
Proof.
  intros [H | (log & c & e & _ & _ & _ & H)] Ho; [assumption | congruence].
Qed.

Lemma fail_fast_bind {A B} (m : M A) (f : A -> M B) :
  fail_fast m -> (forall a, outcome m = Ok a -> fail_fast (f a)) ->
  fail_fast (bind m f).
Proof.
  intros Hm Hf. unfold fail_fast. rewrite calls_bind, outcome_bind.
  destruct (outcome m) as [a | e] eqn:Ho.
  - pose proof (fail_fast_Ok m a Hm Ho) as Hclean.
    destruct (Hf a eq_refl) as [H | (log & c & e & Hc & Hl & Hr & Hout)].
    + left. rewrite no_raise_app, Hclean, H. reflexivity.
    + right. exists (calls m ++ log), c, e. rewrite Hc, app_assoc.
      rewrite no_raise_app, Hclean, Hl. auto.
  - rewrite app_nil_r. destruct Hm as [H | (log & c & e' & Hc & Hl & Hr & Hout)].
    + now left.
    + right. exists log, c, e'. rewrite Ho in Hout. injection Hout as ->. auto.
Qed.

(** A call that raised decides the outcome of a fail-fast computation. *)
Lemma fail_fast_raised {A} (m : M A) (c : call) (e : exn) :
  fail_fast m -> In c (calls m) -> call_outcome c = Raise e ->
  outcome m = Raise e.
Proof.
  intros [H | (log & c' & e' & Hc & Hl & Hr & Hout)] Hin Hraise.
  - destruct (no_raise_In _ _ H Hin) as [r Hr]. congruence.
  - rewrite Hc in Hin. apply in_app_or in Hin as [Hin | [<- | []]].
    + destruct (no_raise_In _ _ Hl Hin) as [r Hr']. congruence.
    + congruence.
Qed.

Lemma external_only_ret {A} (a : A) : external_only (ret a).
Proof. intros e H. discriminate. Qed.

Lemma external_only_self_anonymize text rr kw :
  external_only (self_anonymize text rr kw).
Proof.
  intros e H. exists (mkCall text rr kw). split; [now left | exact H].
Qed.

Lemma external_only_bind {A B} (m : M A) (f : A -> M B) :
  external_only m -> (forall a, outcome m = Ok a -> external_only (f a)) ->
  external_only (bind m f).
Proof.
  intros Hm Hf e. rewrite calls_bind, outcome_bind.
  destruct (outcome m) as [a | e'] eqn:Ho; intros H.
  - destruct (Hf a eq_refl e H) as (c & Hin & Hc).
    exists c. split; [apply in_or_app; now right | assumption].
  - injection H as ->. destruct (Hm e Ho) as (c & Hin & Hc).
    exists c. split; [apply in_or_app; now left | assumption].
Qed.

(** When nothing is raised but what the anonymizer raises, and no call
    raised, the computation returns. *)
Lemma external_only_returns {A} (m : M A) :
  external_only m -> no_raise (calls m) = true -> exists a, outcome m = Ok a.
Proof.
  intros Hm Hclean. destruct (outcome m) as [a | e] eqn:Ho; [eauto |].
  destruct (Hm e Ho) as (c & Hin & Hc).
  destruct (no_raise_In _ _ Hclean Hin) as [r Hr]. congruence.
Qed.


(** *** anonymize_list *)

Lemma chars_length (s : string) : List.length (chars s) = String.length s.
Proof. induction s; simpl; congruence. Qed.

Lemma len_iter (o : pyobj) (l : list pyobj) :
  iter o = Ok l -> len o = Ok (List.length l).
Proof.
  destruct o; simpl; intros H; try discriminate; injection H as <-;
    now rewrite ?chars_length, ?length_map.
Qed.

(** [anonymize_list] is its loop over the pairs of [zip]. *)
Lemma anonymize_list_eq texts recognizer_results_list kwargs ts :
  iter texts = Ok ts ->
  anonymize_list texts recognizer_results_list kwargs =
  rs <- lift (spans_for (List.length ts) recognizer_results_list) ;;
  anonymize_list_loop (combine ts rs) kwargs [].
Proof.
  intros Hts. unfold anonymize_list, spans_for.
  destruct (truthy recognizer_results_list); simpl negb; cbv iota.
  - rewrite bind_ret, Hts, bind_lift_Ok. reflexivity.
  - rewrite (len_iter _ _ Hts), bind_lift_Ok, bind_ret, Hts, bind_lift_Ok.
    simpl iter. rewrite !bind_lift_Ok. reflexivity.
Qed.

Lemma fail_fast_list_loop pairs kwargs return_list :
  fail_fast (anonymize_list_loop pairs kwargs return_list).
Proof.
  revert return_list.
  induction pairs as [| [text rr] rest IH]; intros acc; simpl.
  - apply fail_fast_ret.
  - destruct (type_in text _); [| apply IH].
    apply fail_fast_bind; [apply fail_fast_self_anonymize | intros; apply IH].
Qed.

Lemma external_only_list_loop pairs kwargs return_list :
  external_only (anonymize_list_loop pairs kwargs return_list).
Proof.
  revert return_list.
  induction pairs as [| [text rr] rest IH]; intros acc; simpl.
  - apply external_only_ret.
  - destruct (type_in text _); [| apply IH].
    apply external_only_bind;
      [apply external_only_self_anonymize | intros; apply IH].
Qed.

Lemma fail_fast_anonymize_list texts recognizer_results_list kwargs :
  fail_fast (anonymize_list texts recognizer_results_list kwargs).
Proof.
  unfold anonymize_list.
  apply fail_fast_bind.
  - destruct (negb _); [| apply fail_fast_ret].
    apply fail_fast_bind; [apply fail_fast_lift | intros; apply fail_fast_ret].
  - intros rrl _. apply fail_fast_bind; [apply fail_fast_lift |].
    intros ts _. apply fail_fast_bind; [apply fail_fast_lift |].
    intros rs _. apply fail_fast_list_loop.
Qed.

Lemma external_only_anonymize_list texts recognizer_results_list kwargs ts rs :
  iter texts = Ok ts ->
  spans_for (List.length ts) recognizer_results_list = Ok rs ->
  external_only (anonymize_list texts recognizer_results_list kwargs).
Proof.
  intros Hts Hrs. rewrite (anonymize_list_eq _ _ _ _ Hts), Hrs, bind_lift_Ok.
  apply external_only_list_loop.
Qed.

(** The calls of the loop: one per paired text of the four classes, with
    the string form of the text and the span collection paired with it. *)
Lemma list_loop_calls pairs kwargs return_list c :
  In c (calls (anonymize_list_loop pairs kwargs return_list)) ->
  exists text rr,
    In (text, rr) pairs /\
    type_in text [c_str; c_bool; c_int; c_float] = true /\
    c = mkCall (PStr (str text)) rr kwargs.
Proof.
  revert return_list.
  induction pairs as [| [text rr] rest IH]; intros acc; simpl.
  - intros [].
  - destruct (type_in text _) eqn:Ht.
    + rewrite calls_bind. simpl calls at 1. intros [<- | Hin].
      * exists text, rr. auto.
      * destruct (outcome (self_anonymize _ _ _)); [| destruct Hin].
        destruct (IH _ Hin) as (t & r & H1 & H2 & H3). exists t, r. auto.
    + intros Hin. destruct (IH _ Hin) as (t & r & H1 & H2 & H3).
      exists t, r. auto.
Qed.

(** What the loop returns: what it was given, then one output per pair. *)
Lemma list_loop_outcome pairs kwargs return_list out :
  outcome (anonymize_list_loop pairs kwargs return_list) = Ok out ->
  exists outs,
    out = return_list ++ outs /\
    Forall2 (fun p o => leaf_output kwargs (fst p) (snd p) o) pairs outs.
Proof.
  revert return_list.
  induction pairs as [| [text rr] rest IH]; intros acc; simpl.
  - intros H. injection H as <-. exists []. now rewrite app_nil_r.
  - destruct (type_in text _) eqn:Ht.
    + rewrite outcome_bind. unfold self_anonymize at 1. simpl outcome at 1.
      destruct (anonymize _ rr kwargs) as [res | e] eqn:Ha; [| discriminate].
      intros H. destruct (IH _ H) as (outs & -> & HF).
      exists (PStr (EngineResult.text res) :: outs). split.
      * now rewrite <- app_assoc.
      * constructor; [| assumption]. unfold leaf_output. simpl fst.
        rewrite Ht. eauto.
    + intros H. destruct (IH _ H) as (outs & -> & HF).
      exists (text :: outs). split.
      * now rewrite <- app_assoc.
      * constructor; [| assumption]. unfold leaf_output. simpl fst.
        now rewrite Ht.
Qed.

Lemma Forall2_nth_error {A B} (R : A -> B -> Prop) l1 l2 i a :
  Forall2 R l1 l2 -> nth_error l1 i = Some a ->
  exists b, nth_error l2 i = Some b /\ R a b.
Proof.
  intros H. revert i. induction H; intros [| i]; simpl; try discriminate.
  - intros E. injection E as <-. eauto.
  - apply IHForall2.
Qed.

Lemma nth_error_combine {A B} (l1 : list A) (l2 : list B) i a b :
  nth_error l1 i = Some a -> nth_error l2 i = Some b ->
  nth_error (combine l1 l2) i = Some (a, b).
Proof.
  revert l2 i. induction l1 as [| x l1 IH]; intros [| y l2] [| i]; simpl;
    try discriminate.
  - congruence.
  - apply IH.
Qed.

Lemma spans_for_PList n rrl : spans_for n (PList rrl) = Ok (paired_spans n rrl).
Proof. destruct rrl; reflexivity. Qed.


Lemma nth_error_combine_inv {A B} (l1 : list A) (l2 : list B) i a b :
  nth_error (combine l1 l2) i = Some (a, b) ->
  nth_error l1 i = Some a /\ nth_error l2 i = Some b.
Proof.
  revert l2 i. induction l1 as [| x l1 IH]; intros [| y l2] [| i]; simpl;
    try discriminate.
  - intros H. injection H as -> ->. auto.
  - apply IH.
Qed.

Lemma Forall2_nth_error_r {A B} (R : A -> B -> Prop) l1 l2 i b :
  Forall2 R l1 l2 -> nth_error l2 i = Some b ->
  exists a, nth_error l1 i = Some a /\ R a b.
Proof.
  intros H. revert i. induction H; intros [| i]; simpl; try discriminate.
  - intros E. injection E as <-. eauto.
  - apply IHForall2.
Qed.

Lemma paired_spans_length n rrl :
  rrl = [] \/ List.length rrl = n -> List.length (paired_spans n rrl) = n.
Proof.
  intros [-> | H]; [apply repeat_length |].
  destruct rrl; [apply repeat_length | assumption].
Qed.

Lemma paired_spans_nth n rrl i :
  i < n -> nth i (paired_spans n rrl) (PList []) = nth i rrl (PList []).
Proof.
  intros Hi. destruct rrl as [| r rrl]; [| reflexivity]. simpl paired_spans.
  rewrite nth_repeat_lt by assumption. now destruct i.
Qed.

(** On two lists, [anonymize_list] is its loop over their [zip]. *)
Lemma anonymize_list_lists texts rrl kwargs :
  anonymize_list (PList texts) (PList rrl) kwargs =
  anonymize_list_loop
    (combine texts (paired_spans (List.length texts) rrl)) kwargs [].
Proof.
  rewrite (anonymize_list_eq (PList texts) _ _ texts eq_refl), spans_for_PList.
  now rewrite bind_lift_Ok.
Qed.

(** On two lists, a run none of whose calls raised returns one output per
    pair of [zip]. *)
Lemma anonymize_list_returns texts rrl kwargs :
  no_raise (calls (anonymize_list (PList texts) (PList rrl) kwargs)) = true ->
  exists out,
    outcome (anonymize_list (PList texts) (PList rrl) kwargs) = Ok out /\
    Forall2 (fun p o => leaf_output kwargs (fst p) (snd p) o)
      (combine texts (paired_spans (List.length texts) rrl)) out.
Proof.
  rewrite anonymize_list_lists. intros Hclean.
  destruct (external_only_returns _ (external_only_list_loop _ _ _) Hclean)
    as [out Hout].
  exists out. split; [assumption |].
  destruct (list_loop_outcome _ _ _ _ Hout) as (outs & -> & HF). exact HF.
Qed.

(** C3. Given a list of values and a list of span collections that is empty
    or as long as the values, [anonymize_list] raises nothing but what the
    anonymizer raises, and a call during which the anonymizer does not raise
    returns a list as long as the values, whose element at each position is
    the output for the value at that position (with the span collection at
    that position, or an empty one). *)
Theorem anonymize_list_same_shape (texts rrl : list pyobj) (kwargs : pydict) :
  rrl = [] \/ List.length rrl = List.length texts ->
  external_only (anonymize_list (PList texts) (PList rrl) kwargs) /\
  (no_raise (calls (anonymize_list (PList texts) (PList rrl) kwargs)) = true ->
   exists out,
     outcome (anonymize_list (PList texts) (PList rrl) kwargs) = Ok out /\
     List.length out = List.length texts /\
     forall i text, nth_error texts i = Some text ->
       exists o,
         nth_error out i = Some o /\
         leaf_output kwargs text (nth i rrl (PList [])) o).
Proof.
  intros Hlen. split.
  { eapply external_only_anonymize_list;
      [reflexivity | apply spans_for_PList]. }
  intros Hclean.
  destruct (anonymize_list_returns _ _ _ Hclean) as (out & Hout & HF).
  pose proof (paired_spans_length _ _ Hlen) as Hl.
  exists out. split; [assumption |]. split.
  - rewrite <- (Forall2_length HF), length_combine, Hl. apply Nat.min_id.
  - intros i text Hi.
    assert (Hlt : i < List.length texts)
      by (apply nth_error_Some; congruence).
    assert (Hr : nth_error (paired_spans (List.length texts) rrl) i
                 = Some (nth i rrl (PList []))).
    { rewrite <- (paired_spans_nth (List.length texts)) by assumption.
      apply nth_error_nth'. now rewrite Hl. }
    destruct (Forall2_nth_error _ _ _ _ _ HF (nth_error_combine _ _ _ _ _ Hi Hr))
      as (o & Ho & HR).
    exists o. split; assumption.
Qed.

(** C9. Given a list of values and a non-empty list of span collections of
    another length, [anonymize_list] raises nothing but what the anonymizer
    raises, and a call during which the anonymizer does not raise returns a
    list whose length is the smaller of the two lengths: its elements are
    the outputs for the values and span collections at the same positions,
    and the elements the longer list has beyond that length are dropped. *)
Theorem anonymize_list_truncates (texts rrl : list pyobj) (kwargs : pydict) :
  rrl <> [] -> List.length rrl <> List.length texts ->
  external_only (anonymize_list (PList texts) (PList rrl) kwargs) /\
  (no_raise (calls (anonymize_list (PList texts) (PList rrl) kwargs)) = true ->
   exists out,
     outcome (anonymize_list (PList texts) (PList rrl) kwargs) = Ok out /\
     List.length out = Nat.min (List.length texts) (List.length rrl) /\
     forall i o, nth_error out i = Some o ->
       exists text rr,
         nth_error texts i = Some text /\ nth_error rrl i = Some rr /\
         leaf_output kwargs text rr o).
Proof.
  intros Hne _. split.
  { eapply external_only_anonymize_list;
      [reflexivity | apply spans_for_PList]. }
  intros Hclean.
  destruct (anonymize_list_returns _ _ _ Hclean) as (out & Hout & HF).
  assert (Hp : paired_spans (List.length texts) rrl = rrl)
    by (destruct rrl; [contradiction | reflexivity]).
  rewrite Hp in HF.
  exists out. split; [assumption |]. split.
  - rewrite <- (Forall2_length HF). apply length_combine.
  - intros i o Hi.
    destruct (Forall2_nth_error_r _ _ _ _ _ HF Hi) as ([text rr] & Hc & HR).
    apply nth_error_combine_inv in Hc as [Ht Hr].
    exists text, rr. auto.
Qed.

(** C1, as amended.  Given a list of values and a non-empty list of span
    collections of another length, [anonymize_list] checks no length and
    raises no invalid-argument error of its own: an exception the call ends
    with is one the anonymizer raised on a value of the four leaf classes
    paired with a span collection, at a position below both lengths. *)
Theorem anonymize_list_no_length_check (texts rrl : list pyobj)
    (kwargs : pydict) (e : exn) :
  rrl <> [] -> List.length rrl <> List.length texts ->
  outcome (anonymize_list (PList texts) (PList rrl) kwargs) = Raise e ->
  exists i text rr,
    i < Nat.min (List.length texts) (List.length rrl) /\
    nth_error texts i = Some text /\ nth_error rrl i = Some rr /\
    type_in text [c_str; c_bool; c_int; c_float] = true /\
    anonymize (PStr (str text)) rr kwargs = Raise e.
Proof.
  intros Hne _. rewrite anonymize_list_lists.
  replace (paired_spans (List.length texts) rrl) with rrl
    by (destruct rrl; [contradiction | reflexivity]).
  intros Hout.
  destruct (external_only_list_loop _ _ _ e Hout) as (c & Hin & Hc).
  destruct (list_loop_calls _ _ _ _ Hin) as (text & rr & Hp & Ht & ->).
  apply In_nth_error in Hp as [i Hi].
  assert (Hlt : i < List.length (combine texts rrl))
    by (apply nth_error_Some; congruence).
  rewrite length_combine in Hlt.
  apply nth_error_combine_inv in Hi as [H1 H2].
  exists i, text, rr. auto.
Qed.

(** C7. When the anonymizer returns a text unchanged on an empty span
    collection, and the list of span collections is empty or holds empty
    collections only, [anonymize_list] returns, and wherever the value is a
    string the output at its position is that string; the output is as long
    as the values when the span list is empty or as long as they are. *)
Theorem anonymize_list_no_detections (texts rrl : list pyobj)
    (kwargs : pydict) :
  (forall s, exists res,
      anonymize (PStr s) (PList []) kwargs = Ok res /\
      EngineResult.text res = s) ->
  rrl = [] \/ Forall (fun rr => rr = PList []) rrl ->
  exists out,
    outcome (anonymize_list (PList texts) (PList rrl) kwargs) = Ok out /\
    (rrl = [] \/ List.length rrl = List.length texts ->
     List.length out = List.length texts) /\
    forall i o s,
      nth_error out i = Some o -> nth_error texts i = Some (PStr s) ->
      o = PStr s.
Proof.
  intros Hid Hempty.
  assert (Hall : Forall (fun rr => rr = PList [])
                   (paired_spans (List.length texts) rrl)).
  { destruct rrl as [| r rrl'].
    - simpl. apply Forall_forall. intros x Hx. now apply repeat_spec in Hx.
    - destruct Hempty as [Heq | H]; [discriminate | exact H]. }
  assert (Hclean :
    no_raise (calls (anonymize_list (PList texts) (PList rrl) kwargs)) = true).
  { rewrite anonymize_list_lists. apply forallb_forall. intros c Hin.
    destruct (list_loop_calls _ _ _ _ Hin) as (text & rr & Hp & _ & ->).
    apply in_combine_r in Hp. rewrite Forall_forall in Hall.
    rewrite (Hall _ Hp). unfold call_outcome. simpl.
    destruct (Hid (str text)) as (res & -> & _). reflexivity. }
  destruct (anonymize_list_returns _ _ _ Hclean) as (out & Hout & HF).
  exists out. split; [assumption |]. split.
  - intros Hlen. rewrite <- (Forall2_length HF), length_combine.
    rewrite (paired_spans_length _ _ Hlen). apply Nat.min_id.
  - intros i o s Ho Ht.
    destruct (Forall2_nth_error_r _ _ _ _ _ HF Ho) as ([text rr] & Hc & HR).
    pose proof (nth_error_In _ _ Hc) as Hin. apply in_combine_r in Hin.
    rewrite Forall_forall in Hall. apply Hall in Hin.
    apply nth_error_combine_inv in Hc as [Ht' _].
    rewrite Ht in Ht'. injection Ht' as <-. subst rr.
    unfold leaf_output in HR. simpl in HR.
    destruct HR as (res & Hres & ->).
    destruct (Hid s) as (res' & Hres' & Htext). congruence.
Qed.


(** Induction along the recursion of [anonymize_dict]: from the
    [recognizer_results] of the elements of an object to the object. *)
Lemma analyzer_results_ind (Q : pyobj -> Prop) :
  (forall o,
      (forall r, In r (items o) -> Q (node_recognizer_results r)) -> Q o) ->
  forall o, Q o.
Proof.
  intros step.
  assert (QNone : Q PNone) by (apply step; intros r []).
  assert (Hleaf : forall l,
             Forall (fun r => Q (node_recognizer_results r)) l ->
             forall r, In r l -> Q (node_recognizer_results r))
    by (intros l H; now apply Forall_forall).
  intros o.
  enough (H : Q o /\ Q (node_recognizer_results o)) by apply H.
  induction o using pyobj_nested_ind; simpl; (split; [| try assumption]);
    try (apply step; intros r []).
  - apply step. unfold items. simpl. intros r Hr.
    assert (E : exists c, r = PStr c).
    { induction s as [| a s IH]; simpl in Hr; [destruct Hr |].
      destruct Hr as [<- | Hr]; eauto. }
    destruct E as [c ->]. exact QNone.
  - apply step. unfold items. simpl. apply Hleaf.
    eapply Forall_impl; [| exact H]. intros a Ha. apply Ha.
  - apply step. unfold items. simpl. apply Hleaf.
    eapply Forall_impl; [| exact H]. intros a Ha. apply Ha.
  - apply step. unfold items. simpl. apply Hleaf.
    eapply Forall_impl; [| exact H]. intros a Ha. apply Ha.
  - apply step. unfold items. simpl. intros r Hr.
    apply in_map_iff in Hr as (kv & <- & _). exact QNone.
  - apply IHo2.
Qed.

(** *** anonymize_dict *)

Lemma bind_ext {A B} (m : M A) (f g : A -> M B) :
  (forall a, f a = g a) -> bind m f = bind m g.
Proof.
  intros H. unfold bind. destruct m as [log [a | e]]; [| reflexivity].
  now rewrite H.
Qed.

(** On a list, tuple or set, [anonymize_dict] is its loop, started on an
    empty dict. *)
Lemma anonymize_dict_sequence (l : list pyobj) (kwargs : pydict) :
  anonymize_dict (PList l) kwargs = anonymize_dict_loop l kwargs [] /\
  anonymize_dict (PTuple l) kwargs = anonymize_dict_loop l kwargs [] /\
  anonymize_dict (PSet l) kwargs = anonymize_dict_loop l kwargs [].
Proof.
  cbn [anonymize_dict]. generalize (@nil (string * pyobj)).
  induction l as [| result rest IH]; intros d; [auto |].
  cbn [anonymize_dict_loop].
  destruct result; auto.
  destruct (isinstance result1 c_dict);
    [repeat split; apply bind_ext; intros; apply IH |].
  destruct (isinstance result1 c_str);
    [repeat split; apply bind_ext; intros; apply IH |].
  destruct (isinstance_Iterable result1);
    [repeat split; apply bind_ext; intros; apply IH | apply IH].
Qed.

Lemma anonymize_dict_eq (analyzer_results : pyobj) (kwargs : pydict) :
  anonymize_dict analyzer_results kwargs =
  results <- lift (iter analyzer_results) ;;
  anonymize_dict_loop results kwargs [].
Proof.
  destruct analyzer_results;
    try (simpl iter; rewrite bind_lift_Ok; apply anonymize_dict_sequence);
    try reflexivity.
  - cbn [anonymize_dict]. simpl iter. rewrite !bind_lift_Ok.
    destruct s; reflexivity.
  - cbn [anonymize_dict]. simpl iter. rewrite !bind_lift_Ok.
    destruct d; reflexivity.
Qed.

(** One iteration of the loop: compute the value, store it under the key. *)
Lemma anonymize_dict_loop_step key value rr rest kwargs return_dict :
  anonymize_dict_loop (PDictAnalyzerResult key value rr :: rest) kwargs
    return_dict =
  v <- anonymize_value value rr kwargs ;;
  anonymize_dict_loop rest kwargs (dict_set return_dict key v).
Proof.
  cbn [anonymize_dict_loop]. unfold anonymize_value.
  destruct (isinstance value c_dict).
  { rewrite bind_assoc. apply bind_ext. intros. now rewrite bind_ret. }
  destruct (isinstance value c_str).
  { rewrite bind_assoc. apply bind_ext. intros. now rewrite bind_ret. }
  destruct (isinstance_Iterable value).
  { rewrite bind_assoc. apply bind_ext. intros. now rewrite bind_ret. }
  now rewrite bind_ret.
Qed.

Lemma anonymize_dict_loop_not_node result rest kwargs return_dict :
  type result <> c_DictAnalyzerResult ->
  anonymize_dict_loop (result :: rest) kwargs return_dict =
  raise AttributeError.
Proof. destruct result; try reflexivity. intros H. now destruct H. Qed.

Lemma node_eta (result : pyobj) :
  type result = c_DictAnalyzerResult ->
  result = PDictAnalyzerResult (node_key result) (node_value result)
             (node_recognizer_results result).
Proof. destruct result; try discriminate. reflexivity. Qed.

Lemma annotated_node (result : pyobj) :
  annotated result = true -> type result = c_DictAnalyzerResult.
Proof. destruct result; try discriminate. reflexivity. Qed.

Lemma iter_Iterable (o : pyobj) :
  isinstance_Iterable o = true -> exists l, iter o = Ok l.
Proof. destruct o; try discriminate; simpl; eauto. Qed.

Lemma fail_fast_raise {A} (e : exn) : fail_fast (@raise A e).
Proof. now left. Qed.

Lemma fail_fast_method_call {A} parameters kwargs (body : M A) :
  fail_fast body -> fail_fast (method_call parameters kwargs body).
Proof.
  unfold method_call. now destruct (keyword_clash parameters kwargs); [left |].
Qed.

Lemma method_call_forwardable {A} kwargs (body : M A) :
  forwardable kwargs = true ->
  method_call anonymize_dict_parameters kwargs body = body /\
  method_call anonymize_list_parameters kwargs body = body.
Proof.
  unfold forwardable, method_call. intros H.
  apply andb_prop in H as [H1 H2].
  apply negb_true_iff in H1, H2. now rewrite H1, H2.
Qed.

Lemma fail_fast_anonymize_value value rr kwargs :
  fail_fast (anonymize_dict rr kwargs) ->
  fail_fast (anonymize_value value rr kwargs).
Proof.
  intros Hrec. unfold anonymize_value.
  destruct (isinstance value c_dict).
  { apply fail_fast_bind; [| intros; apply fail_fast_ret].
    now apply fail_fast_method_call. }
  destruct (isinstance value c_str).
  { apply fail_fast_bind;
      [apply fail_fast_self_anonymize | intros; apply fail_fast_ret]. }
  destruct (isinstance_Iterable value); [| apply fail_fast_ret].
  apply fail_fast_bind; [| intros; apply fail_fast_ret].
  apply fail_fast_method_call, fail_fast_anonymize_list.
Qed.

Lemma fail_fast_dict_loop results kwargs :
  (forall r, In r results ->
     fail_fast (anonymize_dict (node_recognizer_results r) kwargs)) ->
  forall return_dict,
    fail_fast (anonymize_dict_loop results kwargs return_dict).
Proof.
  induction results as [| result rest IH]; intros Hrec d.
  - apply fail_fast_ret.
  - destruct result; try apply fail_fast_raise.
    rewrite anonymize_dict_loop_step. apply fail_fast_bind.
    + apply fail_fast_anonymize_value. apply (Hrec _ (or_introl eq_refl)).
    + intros v _. apply IH. intros r Hr. apply Hrec. now right.
Qed.

(** Both methods are fail-fast, on every input. *)
Lemma fail_fast_anonymize_dict analyzer_results kwargs :
  fail_fast (anonymize_dict analyzer_results kwargs).
Proof.
  induction analyzer_results as [o IH] using analyzer_results_ind.
  rewrite anonymize_dict_eq. apply fail_fast_bind; [apply fail_fast_lift |].
  intros results Hres. apply fail_fast_dict_loop.
  intros r Hr. apply IH. unfold items.
  change (outcome (lift (iter o))) with (iter o) in Hres. now rewrite Hres.
Qed.

Lemma external_only_anonymize_value value rr kwargs :
  forwardable kwargs = true ->
  annotated (PDictAnalyzerResult "" value rr) = true ->
  (annotated_nodes rr = true -> external_only (anonymize_dict rr kwargs)) ->
  external_only (anonymize_value value rr kwargs).
Proof.
  cbn [annotated]. unfold anonymize_value. intros Hkw Hann Hrec.
  destruct (method_call_forwardable kwargs (anonymize_dict rr kwargs) Hkw)
    as [-> _].
  destruct (method_call_forwardable kwargs (anonymize_list value rr kwargs)
              Hkw) as [_ ->].
  destruct (isinstance value c_dict).
  { apply external_only_bind; [| intros; apply external_only_ret].
    apply Hrec. destruct rr; try discriminate; exact Hann. }
  destruct (isinstance value c_str).
  { apply external_only_bind;
      [apply external_only_self_anonymize | intros; apply external_only_ret]. }
  destruct (isinstance_Iterable value) eqn:Hit; [| apply external_only_ret].
  apply external_only_bind; [| intros; apply external_only_ret].
  destruct (iter_Iterable _ Hit) as [ts Hts].
  assert (Hrs : exists rs, spans_for (List.length ts) rr = Ok rs).
  { unfold spans_for. destruct (negb (truthy rr)); [eauto |].
    simpl in Hann. now apply iter_Iterable. }
  destruct Hrs as [rs Hrs].
  exact (external_only_anonymize_list _ _ _ _ _ Hts Hrs).
Qed.

Lemma external_only_dict_loop results kwargs :
  forwardable kwargs = true ->
  forallb annotated results = true ->
  (forall r, In r results ->
     annotated_nodes (node_recognizer_results r) = true ->
     external_only (anonymize_dict (node_recognizer_results r) kwargs)) ->
  forall return_dict,
    external_only (anonymize_dict_loop results kwargs return_dict).
Proof.
  intros Hkw.
  induction results as [| result rest IH]; intros Hann Hrec d.
  - apply external_only_ret.
  - simpl in Hann. apply andb_prop in Hann as [Hnode Hrest].
    destruct result; try discriminate.
    rewrite anonymize_dict_loop_step. apply external_only_bind.
    + apply external_only_anonymize_value.
      * exact Hkw.
      * exact Hnode.
      * apply (Hrec _ (or_introl eq_refl)).
    + intros v _. apply IH; [assumption |]. intros r Hr. apply Hrec. now right.
Qed.

(** On annotated nodes, [anonymize_dict] raises nothing of its own. *)
Lemma external_only_anonymize_dict analyzer_results kwargs :
  forwardable kwargs = true ->
  annotated_nodes analyzer_results = true ->
  external_only (anonymize_dict analyzer_results kwargs).
Proof.
  intros Hkw.
  induction analyzer_results as [o IH] using analyzer_results_ind.
  intros Hann. rewrite anonymize_dict_eq.
  assert (Hit : iter o = Ok (items o) /\ forallb annotated (items o) = true)
    by (destruct o; try discriminate; auto).
  destruct Hit as [Hit Hall]. rewrite Hit, bind_lift_Ok.
  apply external_only_dict_loop; [assumption | assumption |].
  intros r Hr. now apply IH.
Qed.



(** *** Dicts *)

Lemma dict_get_set_same d k v : dict_get (dict_set d k v) k = Some v.
Proof.
  induction d as [| [k' v'] d IH]; simpl.
  - now rewrite String.eqb_refl.
  - destruct (String.eqb k' k) eqn:E; simpl.
    + now rewrite String.eqb_refl.
    + now rewrite E.
Qed.

Lemma dict_get_set_other d k k' v :
  k <> k' -> dict_get (dict_set d k' v) k = dict_get d k.
Proof.
  intros Hne. induction d as [| [k0 v0] d IH]; simpl.
  - apply String.eqb_neq in Hne. rewrite String.eqb_sym. now rewrite Hne.
  - destruct (String.eqb k0 k') eqn:E; simpl.
    + apply String.eqb_eq in E as ->.
      apply String.eqb_neq in Hne. rewrite String.eqb_sym. now rewrite Hne.
    + destruct (String.eqb k0 k); [reflexivity | exact IH].
Qed.

Lemma dict_set_fresh d k v :
  ~ In k (keys d) -> dict_set d k v = d ++ [(k, v)].
Proof.
  induction d as [| [k' v'] d IH]; simpl; intros Hk; [reflexivity |].
  destruct (String.eqb k' k) eqn:E.
  - apply String.eqb_eq in E. tauto.
  - rewrite IH; tauto.
Qed.

Lemma keys_dict_set_incl d k v k0 :
  In k0 (keys (dict_set d k v)) -> k0 = k \/ In k0 (keys d).
Proof.
  induction d as [| [k' v'] d IH]; simpl.
  - intros [<- | []]. now left.
  - destruct (String.eqb k' k) eqn:E; simpl.
    + intros [<- | H]; auto.
    + intros [<- | H]; auto. destruct (IH H); auto.
Qed.

Lemma dict_get_In d k v :
  NoDup (keys d) -> In (k, v) d -> dict_get d k = Some v.
Proof.
  induction d as [| [k' v'] d IH]; simpl; intros Hnd Hin; [destruct Hin |].
  inversion Hnd as [| ? ? Hk Hnd']; subst.
  destruct Hin as [E | Hin].
  - injection E as -> ->. now rewrite String.eqb_refl.
  - destruct (String.eqb k' k) eqn:E.
    + apply String.eqb_eq in E as ->. destruct Hk.
      apply (in_map fst) in Hin. exact Hin.
    + now apply IH.
Qed.

Lemma store_all_get_other d results values k :
  ~ In k (map node_key results) ->
  dict_get (store_all d results values) k = dict_get d k.
Proof.
  revert d values. induction results as [| r results IH]; intros d values Hk.
  - reflexivity.
  - destruct values as [| v values]; [reflexivity |]. simpl in *.
    rewrite IH by tauto. apply dict_get_set_other. intros ->. tauto.
Qed.

Lemma store_all_app d pre vpre post vpost :
  List.length pre = List.length vpre ->
  store_all d (pre ++ post) (vpre ++ vpost) =
  store_all (store_all d pre vpre) post vpost.
Proof.
  revert d vpre. induction pre as [| r pre IH]; intros d [| v vpre] Hlen;
    simpl in *; try discriminate; [reflexivity |].
  apply IH. congruence.
Qed.

Lemma store_all_fresh d results values :
  NoDup (keys d ++ map node_key results) ->
  List.length results = List.length values ->
  store_all d results values = d ++ combine (map node_key results) values.
Proof.
  revert d values.
  induction results as [| r results IH]; intros d [| v values] Hnd Hlen;
    simpl in *; try discriminate; [now rewrite app_nil_r |].
  assert (Hfresh : ~ In (node_key r) (keys d)).
  { apply NoDup_remove_2 in Hnd. intros H. apply Hnd.
    apply in_or_app. now left. }
  rewrite IH.
  - rewrite dict_set_fresh by assumption. now rewrite <- app_assoc.
  - rewrite dict_set_fresh by assumption. unfold keys.
    rewrite map_app. simpl. rewrite <- app_assoc. simpl.
    replace (map fst d ++ node_key r :: map node_key results)
      with (keys d ++ node_key r :: map node_key results) by reflexivity.
    exact Hnd.
  - congruence.
Qed.

Lemma keys_store_all_incl d results values k :
  In k (keys (store_all d results values)) ->
  In k (keys d) \/ In k (map node_key results).
Proof.
  revert d values. induction results as [| r results IH]; intros d values.
  - simpl. auto.
  - destruct values as [| v values]; simpl; [auto |]. intros H.
    destruct (IH _ _ H) as [H' | H']; [| auto].
    destruct (keys_dict_set_incl _ _ _ _ H'); subst; auto.
Qed.

(** *** The loop of anonymize_dict *)

Lemma bind_raise {A B} (e : exn) (f : A -> M B) : bind (raise e) f = raise e.
Proof. reflexivity. Qed.

(** The loop over [l1 ++ l2] is the loop over [l1], then the loop over [l2]
    on the dict built so far. *)
Lemma anonymize_dict_loop_app l1 l2 kwargs return_dict :
  anonymize_dict_loop (l1 ++ l2) kwargs return_dict =
  d <- anonymize_dict_loop l1 kwargs return_dict ;;
  anonymize_dict_loop l2 kwargs d.
Proof.
  revert return_dict. induction l1 as [| r l1 IH]; intros d.
  - simpl app. cbn [anonymize_dict_loop]. now rewrite bind_ret.
  - simpl app. destruct r; try (cbn [anonymize_dict_loop]; now rewrite bind_raise).
    rewrite !anonymize_dict_loop_step, bind_assoc.
    apply bind_ext. intros v. apply IH.
Qed.

(** The dict the loop starts from changes neither its calls nor whether it
    returns. *)
Lemma anonymize_dict_loop_irrel results kwargs d d' :
  calls (anonymize_dict_loop results kwargs d) =
  calls (anonymize_dict_loop results kwargs d') /\
  is_ok (outcome (anonymize_dict_loop results kwargs d)) =
  is_ok (outcome (anonymize_dict_loop results kwargs d')).
Proof.
  revert d d'. induction results as [| r results IH]; intros d d'.
  - split; reflexivity.
  - destruct r; try (split; reflexivity).
    rewrite !anonymize_dict_loop_step, !calls_bind, !outcome_bind.
    destruct (outcome (anonymize_value _ _ _)) as [v | e]; [| auto].
    destruct (IH (dict_set d key v) (dict_set d' key v)) as [-> ->]. auto.
Qed.

Lemma dict_loop_outcome results kwargs d d' :
  outcome (anonymize_dict_loop results kwargs d) = Ok d' ->
  exists values,
    Forall2 (node_output kwargs) results values /\
    d' = store_all d results values.
Proof.
  revert d. induction results as [| r results IH]; intros d.
  - cbn [anonymize_dict_loop]. intros H. injection H as <-.
    exists []. split; [constructor | reflexivity].
  - destruct r; try (cbn [anonymize_dict_loop]; discriminate).
    rewrite anonymize_dict_loop_step, outcome_bind.
    destruct (outcome (anonymize_value _ _ _)) as [v | e] eqn:Hv;
      [| discriminate].
    intros H. destruct (IH _ H) as (values & HF & ->).
    exists (v :: values). split; [| reflexivity].
    constructor; [| assumption]. split; [reflexivity | exact Hv].
Qed.

(** The value stored for a node stays under its key unless a later node has
    the same key. *)
Lemma dict_loop_binding pre r post kwargs d0 d :
  outcome (anonymize_dict_loop (pre ++ r :: post) kwargs d0) = Ok d ->
  ~ In (node_key r) (map node_key post) ->
  exists v, node_output kwargs r v /\ dict_get d (node_key r) = Some v.
Proof.
  intros Hout Hk.
  destruct (dict_loop_outcome _ _ _ _ Hout) as (values & HF & ->).
  apply Forall2_app_inv_l in HF as (vpre & vrest & Hpre & Hrest & ->).
  inversion Hrest as [| ? v ? vpost Hr Hpost]; subst.
  exists v. split; [assumption |].
  rewrite store_all_app by apply (Forall2_length Hpre).
  simpl. rewrite store_all_get_other by assumption.
  apply dict_get_set_same.
Qed.

(** On annotated nodes, a run none of whose calls raised returns a dict. *)
Lemma anonymize_dict_returns nodes kwargs :
  forwardable kwargs = true ->
  forallb annotated nodes = true ->
  no_raise (calls (anonymize_dict (PList nodes) kwargs)) = true ->
  exists d, outcome (anonymize_dict (PList nodes) kwargs) = Ok d.
Proof.
  intros Hkw Hann. apply external_only_returns.
  now apply external_only_anonymize_dict.
Qed.

Lemma anonymize_dict_items analyzer_results kwargs :
  annotated_nodes analyzer_results = true ->
  anonymize_dict analyzer_results kwargs =
  anonymize_dict_loop (items analyzer_results) kwargs [].
Proof.
  destruct analyzer_results; try discriminate; intros _;
    apply anonymize_dict_sequence.
Qed.

Lemma anonymize_dict_PList nodes kwargs :
  anonymize_dict (PList nodes) kwargs = anonymize_dict_loop nodes kwargs [].
Proof. apply anonymize_dict_sequence. Qed.

(** The value stored for each shape of [value]. *)
Lemma anonymize_value_dict value rr kwargs v :
  forwardable kwargs = true ->
  isinstance value c_dict = true ->
  outcome (anonymize_value value rr kwargs) = Ok v ->
  exists resp, outcome (anonymize_dict rr kwargs) = Ok resp /\ v = PDict resp.
Proof.
  unfold anonymize_value. intros Hkw ->.
  destruct (method_call_forwardable kwargs (anonymize_dict rr kwargs) Hkw)
    as [-> _].
  rewrite outcome_bind.
  destruct (outcome (anonymize_dict rr kwargs)) as [resp | e]; [| discriminate].
  intros H. injection H as <-. eauto.
Qed.

Lemma anonymize_value_str s rr kwargs v :
  outcome (anonymize_value (PStr s) rr kwargs) = Ok v ->
  exists res,
    anonymize (PStr s) rr kwargs = Ok res /\ v = PStr (EngineResult.text res).
Proof.
  unfold anonymize_value.
  change (isinstance (PStr s) c_dict) with false.
  change (isinstance (PStr s) c_str) with true. cbv iota.
  rewrite outcome_bind.
  change (outcome (self_anonymize (PStr s) rr kwargs))
    with (anonymize (PStr s) rr kwargs).
  destruct (anonymize (PStr s) rr kwargs) as [res | e]; [| discriminate].
  intros H. injection H as <-. eauto.
Qed.

Lemma anonymize_value_iterable value rr kwargs v :
  forwardable kwargs = true ->
  isinstance value c_dict = false -> isinstance value c_str = false ->
  isinstance_Iterable value = true ->
  outcome (anonymize_value value rr kwargs) = Ok v ->
  exists out,
    outcome (anonymize_list value rr kwargs) = Ok out /\ v = PList out.
Proof.
  unfold anonymize_value. intros Hkw -> -> ->.
  destruct (method_call_forwardable kwargs (anonymize_list value rr kwargs)
              Hkw) as [_ ->].
  rewrite outcome_bind.
  destruct (outcome (anonymize_list value rr kwargs)) as [out | e];
    [| discriminate].
  intros H. injection H as <-. eauto.
Qed.

Lemma anonymize_value_other value rr kwargs v :
  isinstance value c_dict = false -> isinstance value c_str = false ->
  isinstance_Iterable value = false ->
  outcome (anonymize_value value rr kwargs) = Ok v -> v = value.
Proof.
  unfold anonymize_value. intros -> -> ->. intros H. now injection H as <-.
Qed.


Lemma keys_combine (ks : list string) (vs : list pyobj) :
  List.length ks = List.length vs -> keys (combine ks vs) = ks.
Proof.
  revert vs. induction ks as [| k ks IH]; intros [| v vs] H; simpl in *;
    try discriminate; [reflexivity |].
  f_equal. apply IH. congruence.
Qed.

(** *** Statements on anonymize_dict *)

(** C4. Given a list, tuple or set of annotated nodes with pairwise distinct
    keys, [anonymize_dict] raises nothing but what the anonymizer raises,
    and a call during which the anonymizer does not raise returns a dict
    whose keys are the keys of the nodes, in the order of the nodes, and
    which binds the key of each node to the value computed for that node. *)
Theorem anonymize_dict_same_keys (analyzer_results : pyobj)
    (kwargs : pydict) :
  forwardable kwargs = true ->
  annotated_nodes analyzer_results = true ->
  NoDup (map node_key (items analyzer_results)) ->
  external_only (anonymize_dict analyzer_results kwargs) /\
  (no_raise (calls (anonymize_dict analyzer_results kwargs)) = true ->
   exists d,
     outcome (anonymize_dict analyzer_results kwargs) = Ok d /\
     keys d = map node_key (items analyzer_results) /\
     forall node, In node (items analyzer_results) ->
       exists v,
         outcome (anonymize_value (node_value node)
                    (node_recognizer_results node) kwargs) = Ok v /\
         dict_get d (node_key node) = Some v).
Proof.
  intros Hkw Hann Hnd.
  pose proof (external_only_anonymize_dict _ kwargs Hkw Hann) as Hext.
  split; [assumption |]. intros Hclean.
  destruct (external_only_returns _ Hext Hclean) as [d Hd].
  exists d. split; [assumption |].
  pose proof Hd as Hloop. rewrite (anonymize_dict_items _ _ Hann) in Hloop.
  set (nodes := items analyzer_results) in *.
  destruct (dict_loop_outcome _ _ _ _ Hloop) as (values & HF & ->).
  pose proof (Forall2_length HF) as Hlen.
  rewrite store_all_fresh by assumption. simpl app.
  assert (Hkeys : keys (combine (map node_key nodes) values)
                  = map node_key nodes).
  { apply keys_combine. now rewrite length_map. }
  split; [assumption |].
  intros node Hin. apply In_nth_error in Hin as [i Hi].
  destruct (Forall2_nth_error _ _ _ _ _ HF Hi) as (v & Hv & _ & Hout).
  exists v. split; [assumption |].
  apply dict_get_In; [now rewrite Hkeys |].
  apply (nth_error_In _ i). apply nth_error_combine; [| assumption].
  now apply map_nth_error.
Qed.

(** C5. When a node of the list has a dict as its value, [anonymize_dict]
    runs itself on the [recognizer_results] of the node and stores the dict
    this returns, as one value, under the key of the node: the keys of the
    output are keys of the nodes of the list, not keys of the nested dict. *)
Theorem anonymize_dict_nested (pre post : list pyobj) (key : string)
    (dv : pydict) (rr : pyobj) (kwargs : pydict) :
  let nodes := pre ++ PDictAnalyzerResult key (PDict dv) rr :: post in
  forwardable kwargs = true ->
  forallb annotated nodes = true ->
  ~ In key (map node_key post) ->
  no_raise (calls (anonymize_dict (PList nodes) kwargs)) = true ->
  exists d resp,
    outcome (anonymize_dict (PList nodes) kwargs) = Ok d /\
    outcome (anonymize_dict rr kwargs) = Ok resp /\
    dict_get d key = Some (PDict resp) /\
    forall k, In k (keys d) -> In k (map node_key nodes).
Proof.
  intros nodes Hkw Hann Hk Hclean.
  destruct (anonymize_dict_returns _ _ Hkw Hann Hclean) as [d Hd].
  pose proof Hd as Hloop. rewrite anonymize_dict_PList in Hloop.
  destruct (dict_loop_binding _ _ _ _ _ _ Hloop Hk) as (v & [_ Hv] & Hget).
  simpl in Hv, Hget.
  destruct (anonymize_value_dict (PDict dv) _ _ _ Hkw eq_refl Hv)
    as (resp & Hresp & ->).
  exists d, resp. repeat split; try assumption.
  intros k Hin.
  destruct (dict_loop_outcome _ _ _ _ Hloop) as (values & _ & ->).
  destruct (keys_store_all_incl _ _ _ _ Hin) as [[] | H]. exact H.
Qed.

(** C10. When the value of a node is an iterable that is neither a dict nor
    a str, a set for one, [anonymize_dict] stores under the key of the node
    the list that [anonymize_list] returns for it: an object of class
    [list], whatever the class of the value. *)
Theorem anonymize_dict_iterable_as_list (pre post : list pyobj) (key : string)
    (value rr : pyobj) (kwargs : pydict) :
  let nodes := pre ++ PDictAnalyzerResult key value rr :: post in
  isinstance value c_dict = false ->
  isinstance value c_str = false ->
  isinstance_Iterable value = true ->
  forwardable kwargs = true ->
  forallb annotated nodes = true ->
  ~ In key (map node_key post) ->
  no_raise (calls (anonymize_dict (PList nodes) kwargs)) = true ->
  exists d out v,
    outcome (anonymize_dict (PList nodes) kwargs) = Ok d /\
    outcome (anonymize_list value rr kwargs) = Ok out /\
    dict_get d key = Some v /\ v = PList out /\ type v = c_list.
Proof.
  intros nodes Hd1 Hs1 Hit Hkw Hann Hk Hclean.
  destruct (anonymize_dict_returns _ _ Hkw Hann Hclean) as [d Hd].
  pose proof Hd as Hloop. rewrite anonymize_dict_PList in Hloop.
  destruct (dict_loop_binding _ _ _ _ _ _ Hloop Hk) as (v & [_ Hv] & Hget).
  simpl in Hv, Hget.
  destruct (anonymize_value_iterable _ _ _ _ Hkw Hd1 Hs1 Hit Hv)
    as (out & Hout & ->).
  exists d, out, (PList out). auto.
Qed.


(** The calls of a run that returns: those for the nodes before a node, those
    for the node, those for the nodes after it. *)
Lemma anonymize_dict_calls_split pre r post kwargs d :
  type r = c_DictAnalyzerResult ->
  outcome (anonymize_dict (PList (pre ++ r :: post)) kwargs) = Ok d ->
  calls (anonymize_dict (PList (pre ++ r :: post)) kwargs) =
  calls (anonymize_dict (PList pre) kwargs)
  ++ calls (anonymize_value (node_value r) (node_recognizer_results r) kwargs)
  ++ calls (anonymize_dict (PList post) kwargs).
Proof.
  intros Hr. destruct r; try discriminate.
  cbn [node_value node_recognizer_results]. rewrite !anonymize_dict_PList.
  rewrite anonymize_dict_loop_app, outcome_bind, calls_bind.
  destruct (outcome (anonymize_dict_loop pre kwargs [])) as [d1 | e];
    [| discriminate].
  rewrite anonymize_dict_loop_step, outcome_bind, calls_bind.
  destruct (outcome (anonymize_value _ _ _)) as [v | e]; [| discriminate].
  intros _. do 2 f_equal. apply anonymize_dict_loop_irrel.
Qed.

Lemma calls_anonymize_value_str s rr kwargs :
  calls (anonymize_value (PStr s) rr kwargs) = [mkCall (PStr s) rr kwargs].
Proof.
  unfold anonymize_value.
  change (isinstance (PStr s) c_dict) with false.
  change (isinstance (PStr s) c_str) with true. cbv iota.
  rewrite calls_bind.
  change (calls (self_anonymize (PStr s) rr kwargs))
    with [mkCall (PStr s) rr kwargs].
  now destruct (outcome (self_anonymize (PStr s) rr kwargs)).
Qed.

Lemma calls_anonymize_value_dict dv rr kwargs :
  forwardable kwargs = true ->
  calls (anonymize_value (PDict dv) rr kwargs) =
  calls (anonymize_dict rr kwargs).
Proof.
  intros Hkw.
  unfold anonymize_value. change (isinstance (PDict dv) c_dict) with true.
  cbv iota.
  destruct (method_call_forwardable kwargs (anonymize_dict rr kwargs) Hkw)
    as [-> _].
  rewrite calls_bind.
  destruct (outcome (anonymize_dict rr kwargs)); apply app_nil_r.
Qed.

(** C6. The value of a node is tested for a dict first, for a str next, for
    an iterable last.  A dict and a str are iterables too; still, for a dict
    the recursive call on the [recognizer_results] of the node is what is
    run and stored, and for a str the anonymizer is called once, on the
    whole string, and its text is stored: the calls of the run are those for
    the nodes before, that one call, and those for the nodes after, none of
    them on a character of the string taken apart. *)
Theorem anonymize_dict_dispatch (pre post : list pyobj) (key : string)
    (value rr : pyobj) (kwargs : pydict) :
  let nodes := pre ++ PDictAnalyzerResult key value rr :: post in
  forwardable kwargs = true ->
  forallb annotated nodes = true ->
  ~ In key (map node_key post) ->
  no_raise (calls (anonymize_dict (PList nodes) kwargs)) = true ->
  exists d,
    outcome (anonymize_dict (PList nodes) kwargs) = Ok d /\
    (forall dv, value = PDict dv ->
       isinstance_Iterable value = true /\
       (exists resp,
          outcome (anonymize_dict rr kwargs) = Ok resp /\
          dict_get d key = Some (PDict resp)) /\
       calls (anonymize_dict (PList nodes) kwargs) =
       calls (anonymize_dict (PList pre) kwargs)
       ++ calls (anonymize_dict rr kwargs)
       ++ calls (anonymize_dict (PList post) kwargs)) /\
    (forall s, value = PStr s ->
       isinstance_Iterable value = true /\
       (exists res,
          anonymize (PStr s) rr kwargs = Ok res /\
          dict_get d key = Some (PStr (EngineResult.text res))) /\
       calls (anonymize_dict (PList nodes) kwargs) =
       calls (anonymize_dict (PList pre) kwargs)
       ++ [mkCall (PStr s) rr kwargs]
       ++ calls (anonymize_dict (PList post) kwargs)).
Proof.
  intros nodes Hkw Hann Hk Hclean.
  destruct (anonymize_dict_returns _ _ Hkw Hann Hclean) as [d Hd].
  pose proof Hd as Hloop. rewrite anonymize_dict_PList in Hloop.
  destruct (dict_loop_binding _ _ _ _ _ _ Hloop Hk) as (v & [_ Hv] & Hget).
  simpl in Hv, Hget.
  pose proof (anonymize_dict_calls_split pre
                (PDictAnalyzerResult key value rr) post kwargs d eq_refl Hd)
    as Hcalls.
  simpl in Hcalls.
  exists d. split; [assumption |]. split.
  - intros dv ->. split; [reflexivity |]. split.
    + destruct (anonymize_value_dict (PDict dv) _ _ _ Hkw eq_refl Hv)
        as (resp & Hresp & ->).
      eauto.
    + now rewrite calls_anonymize_value_dict in Hcalls.
  - intros s ->. split; [reflexivity |]. split.
    + destruct (anonymize_value_str _ _ _ _ Hv) as (res & Hres & ->). eauto.
    + now rewrite calls_anonymize_value_str in Hcalls.
Qed.

Lemma scalar_not_container (value : pyobj) :
  type_in value [c_bool; c_int; c_float] = true ->
  isinstance value c_dict = false /\ isinstance value c_str = false /\
  isinstance_Iterable value = false /\
  type_in value [c_str; c_bool; c_int; c_float] = true /\
  type value <> c_str.
Proof. destruct value; try discriminate; repeat split; discriminate. Qed.

(** C2, as amended.  In [anonymize_dict], a bool, int or float that is the
    value of a node is stored under the key of the node as it is: the same
    object.  In [anonymize_list], a bool, int or float of the list is turned
    into its string form, that string goes to the anonymizer with the span
    collection paired with it, and the output holds at its position the text
    the anonymizer returns: a str, not the value. *)
Theorem non_string_leaves (kwargs : pydict) :
  (forall (pre post : list pyobj) (key : string) (value rr : pyobj),
     let nodes := pre ++ PDictAnalyzerResult key value rr :: post in
     type_in value [c_bool; c_int; c_float] = true ->
     forwardable kwargs = true ->
     forallb annotated nodes = true ->
     ~ In key (map node_key post) ->
     no_raise (calls (anonymize_dict (PList nodes) kwargs)) = true ->
     exists d,
       outcome (anonymize_dict (PList nodes) kwargs) = Ok d /\
       dict_get d key = Some value) /\
  (forall (texts rrl : list pyobj) (i : nat) (text : pyobj),
     nth_error texts i = Some text ->
     type_in text [c_bool; c_int; c_float] = true ->
     rrl = [] \/ i < List.length rrl ->
     no_raise (calls (anonymize_list (PList texts) (PList rrl) kwargs))
       = true ->
     exists out res,
       outcome (anonymize_list (PList texts) (PList rrl) kwargs) = Ok out /\
       anonymize (PStr (str text)) (nth i rrl (PList [])) kwargs = Ok res /\
       nth_error out i = Some (PStr (EngineResult.text res)) /\
       type (PStr (EngineResult.text res)) <> type text).
Proof.
  split.
  - intros pre post key value rr nodes Hty Hkw Hann Hk Hclean.
    destruct (scalar_not_container _ Hty) as (H1 & H2 & H3 & _).
    destruct (anonymize_dict_returns _ _ Hkw Hann Hclean) as [d Hd].
    pose proof Hd as Hloop. rewrite anonymize_dict_PList in Hloop.
    destruct (dict_loop_binding _ _ _ _ _ _ Hloop Hk) as (v & [_ Hv] & Hget).
    simpl in Hv, Hget.
    rewrite (anonymize_value_other _ _ _ _ H1 H2 H3 Hv) in Hget. eauto.
  - intros texts rrl i text Hi Hty Hrr Hclean.
    destruct (scalar_not_container _ Hty) as (_ & _ & _ & Hleaf & Hns).
    destruct (anonymize_list_returns _ _ _ Hclean) as (out & Hout & HF).
    assert (Hlt : i < List.length texts)
      by (apply nth_error_Some; congruence).
    assert (Hr : nth_error (paired_spans (List.length texts) rrl) i
                 = Some (nth i rrl (PList []))).
    { rewrite <- (paired_spans_nth (List.length texts)) by assumption.
      apply nth_error_nth'.
      destruct rrl as [| r rrl']; [simpl; now rewrite repeat_length |].
      destruct Hrr as [Heq | Hrr]; [discriminate | exact Hrr]. }
    destruct (Forall2_nth_error _ _ _ _ _ HF (nth_error_combine _ _ _ _ _ Hi Hr))
      as (o & Ho & HR).
    unfold leaf_output in HR. simpl fst in HR. simpl snd in HR.
    rewrite Hleaf in HR. destruct HR as (res & Hres & ->).
    exists out, res. repeat split; try assumption.
    simpl. congruence.
Qed.

(** *** Where a run stops *)

Lemma anonymize_list_loop_app l1 l2 kwargs return_list :
  anonymize_list_loop (l1 ++ l2) kwargs return_list =
  acc <- anonymize_list_loop l1 kwargs return_list ;;
  anonymize_list_loop l2 kwargs acc.
Proof.
  revert return_list. induction l1 as [| [text rr] l1 IH]; intros acc.
  - simpl. now rewrite bind_ret.
  - simpl. destruct (type_in text _); [| apply IH].
    rewrite bind_assoc. apply bind_ext. intros res. apply IH.
Qed.

Lemma combine_app_same {A B} (l1 l2 : list A) (r1 r2 : list B) :
  List.length l1 = List.length r1 ->
  combine (l1 ++ l2) (r1 ++ r2) = combine l1 r1 ++ combine l2 r2.
Proof.
  revert r1. induction l1 as [| a l1 IH]; intros [| b r1] H; simpl in *;
    try discriminate; [reflexivity |].
  f_equal. apply IH. congruence.
Qed.

(** When the anonymizer raises on a leaf of the list and did not raise on the
    ones before it, [anonymize_list] ends with that exception. *)
Lemma anonymize_list_raises_at tpre tpost rpre rpost text rr kwargs e :
  List.length tpre = List.length rpre ->
  type_in text [c_str; c_bool; c_int; c_float] = true ->
  anonymize (PStr (str text)) rr kwargs = Raise e ->
  no_raise (calls (anonymize_list (PList tpre) (PList rpre) kwargs)) = true ->
  outcome (anonymize_list (PList (tpre ++ text :: tpost))
             (PList (rpre ++ rr :: rpost)) kwargs)
  = Raise e.
Proof.
  intros Hlen Ht He. rewrite !anonymize_list_lists.
  replace (paired_spans (List.length tpre) rpre) with rpre
    by (destruct rpre; [now destruct tpre | reflexivity]).
  replace (paired_spans (List.length (tpre ++ text :: tpost))
             (rpre ++ rr :: rpost))
    with (rpre ++ rr :: rpost) by now destruct rpre.
  rewrite combine_app_same by assumption. intros Hclean.
  destruct (external_only_returns _ (external_only_list_loop _ _ _) Hclean)
    as [acc Hacc].
  rewrite anonymize_list_loop_app, outcome_bind, Hacc.
  simpl. rewrite Ht, outcome_bind.
  change (outcome (self_anonymize (PStr (str text)) rr kwargs))
    with (anonymize (PStr (str text)) rr kwargs).
  now rewrite He.
Qed.

(** When the value of a node cannot be computed, because the anonymizer
    raised in it, and the nodes before it were processed, [anonymize_dict]
    ends with that exception. *)
Lemma anonymize_dict_raises_at pre post key value rr kwargs e d :
  outcome (anonymize_dict (PList pre) kwargs) = Ok d ->
  outcome (anonymize_value value rr kwargs) = Raise e ->
  outcome (anonymize_dict
             (PList (pre ++ PDictAnalyzerResult key value rr :: post)) kwargs)
  = Raise e.
Proof.
  rewrite !anonymize_dict_PList. intros Hpre Hv.
  rewrite anonymize_dict_loop_app, outcome_bind, Hpre.
  now rewrite anonymize_dict_loop_step, outcome_bind, Hv.
Qed.

(** C8. When a call to the anonymizer made during a run of [anonymize_list]
    or of [anonymize_dict] raises, the run ends with that exception: with no
    list and no dict, whatever had been built before the call. *)
Theorem anonymizer_error_aborts (c : call) (e : exn) :
  call_outcome c = Raise e ->
  (forall (texts rrl : pyobj) (kwargs : pydict),
     In c (calls (anonymize_list texts rrl kwargs)) ->
     outcome (anonymize_list texts rrl kwargs) = Raise e) /\
  (forall (analyzer_results : pyobj) (kwargs : pydict),
     In c (calls (anonymize_dict analyzer_results kwargs)) ->
     outcome (anonymize_dict analyzer_results kwargs) = Raise e).
Proof.
  intros Hc. split.
  - intros texts rrl kwargs Hin.
    exact (fail_fast_raised _ _ _ (fail_fast_anonymize_list _ _ _) Hin Hc).
  - intros o kwargs Hin.
    exact (fail_fast_raised _ _ _ (fail_fast_anonymize_dict _ _) Hin Hc).
Qed.


(** ** Further properties *)

(** *** anonymize_list on any objects *)

Lemma len_iter_Raise (o : pyobj) (e : exn) :
  iter o = Raise e -> len o = Raise e /\ e = TypeError.
Proof.
  destruct o; simpl; intros H; try discriminate; injection H as <-; auto.
Qed.

(** A call that returns has gone through its loop. *)
Lemma anonymize_list_Ok_inv texts rrl kwargs out :
  outcome (anonymize_list texts rrl kwargs) = Ok out ->
  exists ts rs,
    iter texts = Ok ts /\ spans_for (List.length ts) rrl = Ok rs /\
    anonymize_list texts rrl kwargs =
    anonymize_list_loop (combine ts rs) kwargs [].
Proof.
  destruct (iter texts) as [ts | e] eqn:Hts.
  - rewrite (anonymize_list_eq _ _ _ _ Hts).
    destruct (spans_for (List.length ts) rrl) as [rs | e] eqn:Hrs.
    + rewrite bind_lift_Ok. intros _. exists ts, rs. auto.
    + rewrite bind_lift_Raise. discriminate.
  - destruct (len_iter_Raise _ _ Hts) as [Hlen _].
    unfold anonymize_list.
    destruct (negb (truthy rrl)).
    + rewrite Hlen, bind_lift_Raise, bind_raise. discriminate.
    + rewrite bind_ret, Hts, bind_lift_Raise. discriminate.
Qed.

Lemma nth_error_repeat_lt {A} (x : A) n i :
  i < n -> nth_error (repeat x n) i = Some x.
Proof.
  revert i. induction n as [| n IH]; intros [| i] H; simpl; try lia; auto.
  apply IH. lia.
Qed.

(** X1. Given any iterable of values (a list, a tuple, a set) and, for the
    span collections, any object that is false in a test ([None], an empty
    list, an empty tuple, ...), [anonymize_list] raises nothing but what the
    anonymizer raises, and a call during which the anonymizer does not raise
    returns one output per value, each computed with an empty span
    collection. *)
Theorem anonymize_list_without_spans (texts rrl : pyobj) (kwargs : pydict)
    (ts : list pyobj) :
  truthy rrl = false ->
  iter texts = Ok ts ->
  external_only (anonymize_list texts rrl kwargs) /\
  (no_raise (calls (anonymize_list texts rrl kwargs)) = true ->
   exists out,
     outcome (anonymize_list texts rrl kwargs) = Ok out /\
     List.length out = List.length ts /\
     forall i text, nth_error ts i = Some text ->
       exists o,
         nth_error out i = Some o /\ leaf_output kwargs text (PList []) o).
Proof.
  intros Hfalse Hts.
  assert (Hrs : spans_for (List.length ts) rrl
                = Ok (repeat (PList []) (List.length ts)))
    by (unfold spans_for; now rewrite Hfalse).
  split; [exact (external_only_anonymize_list _ _ _ _ _ Hts Hrs) |].
  rewrite (anonymize_list_eq _ _ _ _ Hts), Hrs, bind_lift_Ok.
  intros Hclean.
  destruct (external_only_returns _ (external_only_list_loop _ _ _) Hclean)
    as [out Hout].
  destruct (list_loop_outcome _ _ _ _ Hout) as (outs & -> & HF).
  exists outs. split; [assumption |]. split.
  - rewrite <- (Forall2_length HF), length_combine, repeat_length.
    apply Nat.min_id.
  - intros i text Hi.
    assert (Hlt : i < List.length ts) by (apply nth_error_Some; congruence).
    pose proof (nth_error_repeat_lt (PList []) _ _ Hlt) as Hr.
    destruct (Forall2_nth_error _ _ _ _ _ HF (nth_error_combine _ _ _ _ _ Hi Hr))
      as (o & Ho & HR).
    exists o. split; assumption.
Qed.

(** X2. Whatever it is given, [anonymize_list] returns no bool, no int and
    no float: the elements of the list it returns are strings or elements of
    the input of another class. *)
Theorem anonymize_list_returns_no_number (texts rrl : pyobj)
    (kwargs : pydict) (out : list pyobj) :
  outcome (anonymize_list texts rrl kwargs) = Ok out ->
  forall o, In o out ->
    type_in o [c_bool; c_int; c_float] = false /\
    (type o = c_str \/ In o (items texts)).
Proof.
  intros Hout.
  destruct (anonymize_list_Ok_inv _ _ _ _ Hout) as (ts & rs & Hts & _ & Heq).
  rewrite Heq in Hout.
  destruct (list_loop_outcome _ _ _ _ Hout) as (outs & -> & HF).
  simpl. intros o Hin. apply In_nth_error in Hin as [i Hi].
  destruct (Forall2_nth_error_r _ _ _ _ _ HF Hi) as ([text rr] & Hp & HR).
  unfold leaf_output in HR. simpl in HR.
  destruct (type_in text [c_str; c_bool; c_int; c_float]) eqn:Ht.
  - destruct HR as (res & _ & ->). split; [reflexivity | now left].
  - subst o. split.
    + destruct text; try reflexivity; discriminate.
    + right. unfold items. rewrite Hts.
      apply nth_error_In in Hp. now apply in_combine_l in Hp.
Qed.

Lemma list_loop_calls_Ok pairs kwargs return_list out :
  outcome (anonymize_list_loop pairs kwargs return_list) = Ok out ->
  calls (anonymize_list_loop pairs kwargs return_list) =
  map (leaf_call kwargs) (filter (fun p => leaf (fst p)) pairs).
Proof.
  revert return_list.
  induction pairs as [| [text rr] rest IH]; intros acc; simpl.
  - reflexivity.
  - unfold leaf at 1. simpl fst.
    destruct (type_in text _) eqn:Ht.
    + rewrite outcome_bind, calls_bind.
      change (calls (self_anonymize (PStr (str text)) rr kwargs))
        with [leaf_call kwargs (text, rr)].
      destruct (outcome (self_anonymize _ _ _)) as [res | e];
        [| discriminate].
      intros H. simpl. f_equal. exact (IH _ H).
    + apply IH.
Qed.

(** X3. A call to [anonymize_list] on two lists that returns has called the
    anonymizer once for each paired value that is a str, bool, int or
    float, in the order of the list, with the string form of the value, the
    span collection paired with it and the keyword arguments of the call;
    and for no other value. *)
Theorem anonymize_list_calls (texts rrl : list pyobj) (kwargs : pydict)
    (out : list pyobj) :
  outcome (anonymize_list (PList texts) (PList rrl) kwargs) = Ok out ->
  calls (anonymize_list (PList texts) (PList rrl) kwargs) =
  map (leaf_call kwargs)
    (filter (fun p => leaf (fst p))
       (combine texts (paired_spans (List.length texts) rrl))).
Proof.
  rewrite anonymize_list_lists. apply list_loop_calls_Ok.
Qed.

Lemma map_fst_combine_same {A B} (l1 : list A) (l2 : list B) :
  List.length l1 = List.length l2 -> map fst (combine l1 l2) = l1.
Proof.
  revert l2. induction l1 as [| a l1 IH]; intros [| b l2] H; simpl in *;
    try discriminate; [reflexivity |].
  f_equal. apply IH. congruence.
Qed.

Lemma list_loop_no_leaf pairs kwargs return_list :
  Forall (fun p => leaf (fst p) = false) pairs ->
  anonymize_list_loop pairs kwargs return_list =
  ret (return_list ++ map fst pairs).
Proof.
  intros H. revert return_list.
  induction H as [| [text rr] rest Ht _ IH]; intros acc; simpl.
  - now rewrite app_nil_r.
  - unfold leaf in Ht. simpl in Ht. rewrite Ht, IH, <- app_assoc.
    reflexivity.
Qed.

(** X4. Elements that are none of str, bool, int and float (dicts and lists
    inside a list, [None]) go through [anonymize_list] as they are, and the
    anonymizer is not called for them: a list of such elements, with no span
    collections or one for each, comes back unchanged and the anonymizer is
    never called, whatever the span collections hold. *)
Theorem anonymize_list_passes_other_classes (texts rrl : list pyobj)
    (kwargs : pydict) :
  Forall (fun text => leaf text = false) texts ->
  rrl = [] \/ List.length rrl = List.length texts ->
  anonymize_list (PList texts) (PList rrl) kwargs = ([], Ok texts).
Proof.
  intros Hall Hlen. rewrite anonymize_list_lists.
  pose proof (paired_spans_length _ _ Hlen) as Hl.
  rewrite list_loop_no_leaf.
  - simpl app. rewrite map_fst_combine_same by now rewrite Hl. reflexivity.
  - apply Forall_forall. intros [text rr] Hin. simpl.
    apply in_combine_l in Hin. rewrite Forall_forall in Hall. now apply Hall.
Qed.


(** *** The calls of a run *)

Lemma fail_fast_last {A} (m : M A) l1 c l2 e :
  fail_fast m -> calls m = l1 ++ c :: l2 -> call_outcome c = Raise e ->
  l2 = [].
Proof.
  intros [H | (log & c' & e' & Hc & Hl & _)] Hcalls Hraise.
  - assert (Hin : In c (calls m))
      by (rewrite Hcalls; apply in_or_app; right; now left).
    destruct (no_raise_In _ _ H Hin) as [r Hr]. congruence.
  - destruct (exists_last (l := c :: l2)) as (l & x & Hlast);
      [discriminate |].
    rewrite Hcalls, Hlast, app_assoc in Hc.
    apply app_inj_tail in Hc as [Hlog _].
    destruct l2 as [| y l2]; [reflexivity | exfalso].
    destruct l as [| z l]; [destruct l2; discriminate |].
    injection Hlast as <- _.
    assert (Hin : In c log)
      by (rewrite <- Hlog; apply in_or_app; right; now left).
    destruct (no_raise_In _ _ Hl Hin) as [r Hr]. congruence.
Qed.

(** X5. After a call to the anonymizer that raised, [anonymize_list] and
    [anonymize_dict] call the anonymizer no more: a call that raised is the
    last call of its run, whatever the input. *)
Theorem no_call_after_raise (c : call) (e : exn) (l1 l2 : list call) :
  call_outcome c = Raise e ->
  (forall texts rrl kwargs,
     calls (anonymize_list texts rrl kwargs) = l1 ++ c :: l2 -> l2 = []) /\
  (forall analyzer_results kwargs,
     calls (anonymize_dict analyzer_results kwargs) = l1 ++ c :: l2 ->
     l2 = []).
Proof.
  intros Hc. split.
  - intros texts rrl kwargs H.
    exact (fail_fast_last _ _ _ _ _ (fail_fast_anonymize_list _ _ _) H Hc).
  - intros o kwargs H.
    exact (fail_fast_last _ _ _ _ _ (fail_fast_anonymize_dict _ _) H Hc).
Qed.

Lemma passes_nil {A} kwargs (m : M A) : calls m = [] -> passes kwargs m.
Proof. intros H c. rewrite H. intros []. Qed.

Lemma passes_bind {A B} kwargs (m : M A) (f : A -> M B) :
  passes kwargs m -> (forall a, passes kwargs (f a)) ->
  passes kwargs (bind m f).
Proof.
  intros Hm Hf c. rewrite calls_bind. intros Hin.
  apply in_app_or in Hin as [Hin | Hin]; [now apply Hm |].
  destruct (outcome m) as [a | e]; [now apply (Hf a) | destruct Hin].
Qed.

Lemma passes_self_anonymize text rr kwargs :
  type text = c_str -> passes kwargs (self_anonymize text rr kwargs).
Proof. intros Ht c [<- | []]. auto. Qed.

Lemma passes_list_loop pairs kwargs return_list :
  passes kwargs (anonymize_list_loop pairs kwargs return_list).
Proof.
  revert return_list.
  induction pairs as [| [text rr] rest IH]; intros acc; simpl.
  - now apply passes_nil.
  - destruct (type_in text _); [| apply IH].
    apply passes_bind; [now apply passes_self_anonymize | intros; apply IH].
Qed.

Lemma passes_anonymize_list texts rrl kwargs :
  passes kwargs (anonymize_list texts rrl kwargs).
Proof.
  unfold anonymize_list. apply passes_bind.
  - destruct (negb _); [| now apply passes_nil].
    apply passes_bind; [now apply passes_nil | intros; now apply passes_nil].
  - intros rrl'. apply passes_bind; [now apply passes_nil |].
    intros ts. apply passes_bind; [now apply passes_nil |].
    intros rs. apply passes_list_loop.
Qed.

Lemma passes_method_call {A} parameters kwargs (body : M A) :
  passes kwargs body -> passes kwargs (method_call parameters kwargs body).
Proof.
  unfold method_call.
  now destruct (keyword_clash parameters kwargs); [intros _; apply passes_nil |].
Qed.

Lemma isinstance_type (o : pyobj) (c : pyclass) :
  isinstance o c = true -> type o = c.
Proof. unfold isinstance. destruct (type o), c; simpl; congruence. Qed.

Lemma passes_anonymize_value value rr kwargs :
  passes kwargs (anonymize_dict rr kwargs) ->
  passes kwargs (anonymize_value value rr kwargs).
Proof.
  intros Hrec. unfold anonymize_value.
  destruct (isinstance value c_dict).
  { apply passes_bind; [| intros; now apply passes_nil].
    now apply passes_method_call. }
  destruct (isinstance value c_str) eqn:Hs.
  { apply passes_bind; [| intros; now apply passes_nil].
    apply passes_self_anonymize. now apply isinstance_type. }
  destruct (isinstance_Iterable value); [| now apply passes_nil].
  apply passes_bind; [| intros; now apply passes_nil].
  apply passes_method_call, passes_anonymize_list.
Qed.

Lemma passes_dict_loop results kwargs :
  (forall r, In r results ->
     passes kwargs (anonymize_dict (node_recognizer_results r) kwargs)) ->
  forall return_dict,
    passes kwargs (anonymize_dict_loop results kwargs return_dict).
Proof.
  induction results as [| result rest IH]; intros Hrec d.
  - now apply passes_nil.
  - destruct result; try now apply passes_nil.
    rewrite anonymize_dict_loop_step. apply passes_bind.
    + apply passes_anonymize_value. apply (Hrec _ (or_introl eq_refl)).
    + intros v. apply IH. intros r Hr. apply Hrec. now right.
Qed.

Lemma passes_anonymize_dict analyzer_results kwargs :
  passes kwargs (anonymize_dict analyzer_results kwargs).
Proof.
  induction analyzer_results as [o IH] using analyzer_results_ind.
  rewrite anonymize_dict_eq.
  destruct (iter o) as [l | e] eqn:Hit; [| now apply passes_nil].
  rewrite bind_lift_Ok. apply passes_dict_loop.
  intros r Hr. apply IH. unfold items. now rewrite Hit.
Qed.

(** X6. Every call [anonymize_list] and [anonymize_dict] make to the
    anonymizer, at any depth of nesting, passes a str as text and the
    keyword arguments of the outer call, unchanged. *)
Theorem calls_pass_str_and_kwargs (kwargs : pydict) (c : call) :
  (exists texts rrl, In c (calls (anonymize_list texts rrl kwargs))) \/
  (exists analyzer_results,
     In c (calls (anonymize_dict analyzer_results kwargs))) ->
  type (call_text c) = c_str /\ call_kwargs c = kwargs.
Proof.
  intros [(texts & rrl & H) | (o & H)].
  - exact (passes_anonymize_list _ _ _ _ H).
  - exact (passes_anonymize_dict _ _ _ H).
Qed.

(** X7. When the object given to [anonymize_dict] yields, after elements the
    loop has processed, an element that is not a [DictAnalyzerResult] (the
    keys of the data dict passed in place of its analyzer results, a bare
    [RecognizerResult]), the call ends with [AttributeError]: the dict built
    so far is dropped and no further call to the anonymizer is made. *)
Theorem anonymize_dict_not_a_node (analyzer_results : pyobj)
    (pre post : list pyobj) (r : pyobj) (kwargs : pydict) (d : pydict) :
  iter analyzer_results = Ok (pre ++ r :: post) ->
  type r <> c_DictAnalyzerResult ->
  outcome (anonymize_dict (PList pre) kwargs) = Ok d ->
  outcome (anonymize_dict analyzer_results kwargs) = Raise AttributeError /\
  calls (anonymize_dict analyzer_results kwargs) =
  calls (anonymize_dict (PList pre) kwargs).
Proof.
  intros Hit Hr. rewrite anonymize_dict_PList. intros Hpre.
  rewrite anonymize_dict_eq, Hit, bind_lift_Ok, anonymize_dict_loop_app.
  rewrite outcome_bind, calls_bind, Hpre.
  rewrite (anonymize_dict_loop_not_node _ _ _ _ Hr).
  split; [reflexivity | apply app_nil_r].
Qed.


(** *** Repeated keys *)

Lemma existsb_eqb_In (k : string) (l : list string) :
  existsb (String.eqb k) l = true <-> In k l.
Proof.
  rewrite existsb_exists. split.
  - intros (x & Hin & E). apply String.eqb_eq in E. now subst.
  - intros H. exists k. split; [assumption | apply String.eqb_refl].
Qed.

Lemma keys_dict_set d k v :
  keys (dict_set d k v) =
  if existsb (String.eqb k) (keys d) then keys d else keys d ++ [k].
Proof.
  induction d as [| [k' v'] d IH]; simpl; [reflexivity |].
  rewrite (String.eqb_sym k k').
  destruct (String.eqb k' k) eqn:E; simpl.
  - apply String.eqb_eq in E. now subst.
  - rewrite IH. now destruct (existsb (String.eqb k) (keys d)).
Qed.

Lemma keys_store_all d results values :
  List.length results = List.length values ->
  keys (store_all d results values) =
  keys d ++ first_occurrences (keys d) (map node_key results).
Proof.
  revert d values.
  induction results as [| r results IH]; intros d [| v values] Hlen;
    simpl in *; try discriminate; [now rewrite app_nil_r |].
  rewrite IH by congruence. rewrite keys_dict_set.
  destruct (existsb (String.eqb (node_key r)) (keys d)); [reflexivity |].
  now rewrite <- app_assoc.
Qed.

Lemma NoDup_first_occurrences seen ks :
  NoDup seen -> NoDup (seen ++ first_occurrences seen ks).
Proof.
  revert seen. induction ks as [| k ks IH]; intros seen Hnd; simpl.
  - now rewrite app_nil_r.
  - destruct (existsb (String.eqb k) seen) eqn:E; [now apply IH |].
    replace (seen ++ k :: first_occurrences (seen ++ [k]) ks)
      with ((seen ++ [k]) ++ first_occurrences (seen ++ [k]) ks)
      by now rewrite <- app_assoc.
    apply IH. apply NoDup_app; [assumption | repeat constructor; intros [] |].
    intros x Hx [<- | []].
    apply existsb_eqb_In in Hx. congruence.
Qed.

(** X8. The dict [anonymize_dict] returns has pairwise distinct keys: the
    keys of the nodes, each once, in the order in which they first occur.
    Where several nodes have the same key, the key is bound to the value
    computed for the last of them. *)
Theorem anonymize_dict_repeated_keys (nodes : list pyobj) (kwargs : pydict)
    (d : pydict) :
  outcome (anonymize_dict (PList nodes) kwargs) = Ok d ->
  NoDup (keys d) /\
  keys d = first_occurrences [] (map node_key nodes) /\
  forall pre r post,
    nodes = pre ++ r :: post ->
    ~ In (node_key r) (map node_key post) ->
    exists v,
      outcome (anonymize_value (node_value r) (node_recognizer_results r)
                 kwargs) = Ok v /\
      dict_get d (node_key r) = Some v.
Proof.
  rewrite anonymize_dict_PList. intros Hd.
  destruct (dict_loop_outcome _ _ _ _ Hd) as (values & HF & Heq).
  assert (Hkeys : keys d = first_occurrences [] (map node_key nodes)).
  { rewrite Heq, keys_store_all by apply (Forall2_length HF). reflexivity. }
  split; [| split; [assumption |]].
  - rewrite Hkeys. apply (NoDup_first_occurrences []). constructor.
  - intros pre r post -> Hlast.
    destruct (dict_loop_binding _ _ _ _ _ _ Hd Hlast) as (v & [_ Hv] & Hget).
    eauto.
Qed.

(** *** Runs on parts of the input *)

Lemma dict_loop_run results values kwargs :
  Forall2 (node_output kwargs) results values ->
  forall d,
    outcome (anonymize_dict_loop results kwargs d) =
    Ok (store_all d results values).
Proof.
  induction 1 as [| r v results values [Hr Hv] _ IH]; intros d.
  - reflexivity.
  - destruct r; try discriminate. simpl in Hv.
    rewrite anonymize_dict_loop_step, outcome_bind, Hv. apply IH.
Qed.

Lemma dict_set_app_fresh d1 d k v :
  ~ In k (keys d1) -> dict_set (d1 ++ d) k v = d1 ++ dict_set d k v.
Proof.
  induction d1 as [| [k' v'] d1 IH]; simpl; intros Hk; [reflexivity |].
  destruct (String.eqb k' k) eqn:E.
  - apply String.eqb_eq in E. tauto.
  - rewrite IH; tauto.
Qed.

Lemma store_all_app_fresh d1 d results values :
  (forall k, In k (map node_key results) -> ~ In k (keys d1)) ->
  store_all (d1 ++ d) results values = d1 ++ store_all d results values.
Proof.
  revert d values.
  induction results as [| r results IH]; intros d [| v values] Hfresh;
    simpl in *; try reflexivity.
  rewrite dict_set_app_fresh by auto. apply IH. auto.
Qed.

(** X9. Nodes are processed one after the other and independently: when two
    lists of nodes share no key and [anonymize_dict] returns a dict for
    each, it returns for the two lists put end to end the two dicts put end
    to end, having made the calls of the first run, then those of the
    second. *)
Theorem anonymize_dict_app (l1 l2 : list pyobj) (kwargs : pydict)
    (d1 d2 : pydict) :
  outcome (anonymize_dict (PList l1) kwargs) = Ok d1 ->
  outcome (anonymize_dict (PList l2) kwargs) = Ok d2 ->
  (forall k, In k (map node_key l2) -> ~ In k (map node_key l1)) ->
  outcome (anonymize_dict (PList (l1 ++ l2)) kwargs) = Ok (d1 ++ d2) /\
  calls (anonymize_dict (PList (l1 ++ l2)) kwargs) =
  calls (anonymize_dict (PList l1) kwargs)
  ++ calls (anonymize_dict (PList l2) kwargs).
Proof.
  rewrite !anonymize_dict_PList. intros H1 H2 Hdisj.
  rewrite anonymize_dict_loop_app, outcome_bind, calls_bind, H1.
  destruct (dict_loop_outcome _ _ _ _ H1) as (values1 & _ & Hd1).
  destruct (dict_loop_outcome _ _ _ _ H2) as (values2 & HF2 & Hd2).
  split.
  - rewrite (dict_loop_run _ _ _ HF2 d1).
    rewrite <- (app_nil_r d1) at 1.
    rewrite store_all_app_fresh, <- Hd2; [reflexivity |].
    intros k Hk Hin. rewrite Hd1 in Hin.
    destruct (keys_store_all_incl _ _ _ _ Hin) as [[] | Hin'].
    exact (Hdisj k Hk Hin').
  - f_equal. apply anonymize_dict_loop_irrel.
Qed.

Lemma list_loop_acc pairs kwargs acc :
  calls (anonymize_list_loop pairs kwargs acc) =
  calls (anonymize_list_loop pairs kwargs []) /\
  outcome (anonymize_list_loop pairs kwargs acc) =
  match outcome (anonymize_list_loop pairs kwargs []) with
  | Ok outs => Ok (acc ++ outs)
  | Raise e => Raise e
  end.
Proof.
  revert acc. induction pairs as [| [text rr] rest IH]; intros acc; simpl.
  - split; [reflexivity | now rewrite app_nil_r].
  - destruct (type_in text _).
    + rewrite !calls_bind, !outcome_bind.
      destruct (outcome (self_anonymize _ _ _)) as [res | e]; [| auto].
      destruct (IH (acc ++ [PStr (EngineResult.text res)])) as [-> ->].
      destruct (IH [PStr (EngineResult.text res)]) as [-> ->].
      split; [reflexivity |].
      destruct (outcome (anonymize_list_loop rest kwargs [])); [| reflexivity].
      now rewrite <- app_assoc.
    + destruct (IH (acc ++ [text])) as [-> ->].
      destruct (IH [text]) as [-> ->].
      split; [reflexivity |].
      destruct (outcome (anonymize_list_loop rest kwargs [])); [| reflexivity].
      now rewrite <- app_assoc.
Qed.

(** X10. Elements are processed one after the other and independently: when
    [anonymize_list] returns for a list of values with one span collection
    each, and for a second list of values with a non-empty list of span
    collections, it returns for the lists put end to end the two outputs put
    end to end, having made the calls of the first run, then those of the
    second. *)
Theorem anonymize_list_app (t1 t2 r1 r2 : list pyobj) (kwargs : pydict)
    (o1 o2 : list pyobj) :
  List.length t1 = List.length r1 ->
  r2 <> [] ->
  outcome (anonymize_list (PList t1) (PList r1) kwargs) = Ok o1 ->
  outcome (anonymize_list (PList t2) (PList r2) kwargs) = Ok o2 ->
  outcome (anonymize_list (PList (t1 ++ t2)) (PList (r1 ++ r2)) kwargs)
  = Ok (o1 ++ o2) /\
  calls (anonymize_list (PList (t1 ++ t2)) (PList (r1 ++ r2)) kwargs) =
  calls (anonymize_list (PList t1) (PList r1) kwargs)
  ++ calls (anonymize_list (PList t2) (PList r2) kwargs).
Proof.
  intros Hlen Hr2. rewrite !anonymize_list_lists.
  replace (paired_spans (List.length t1) r1) with r1
    by (destruct r1; [now destruct t1 | reflexivity]).
  replace (paired_spans (List.length t2) r2) with r2
    by (destruct r2; [contradiction | reflexivity]).
  replace (paired_spans (List.length (t1 ++ t2)) (r1 ++ r2)) with (r1 ++ r2)
    by (destruct r1; [destruct r2; [contradiction | reflexivity]
                     | reflexivity]).
  rewrite combine_app_same by assumption. intros H1 H2.
  rewrite anonymize_list_loop_app, outcome_bind, calls_bind, H1.
  destruct (list_loop_acc (combine t2 r2) kwargs o1) as [-> ->].
  now rewrite H2.
Qed.


(** *** Inputs of the wrong kind *)

(** X11. Given an object that cannot be iterated over ([None], a number, a
    single [DictAnalyzerResult]) where the values or the analyzer results
    are expected, [anonymize_list] and [anonymize_dict] end with
    [TypeError], without a call to the anonymizer. *)
Theorem not_iterable_TypeError (o : pyobj) :
  isinstance_Iterable o = false ->
  (forall rrl kwargs, anonymize_list o rrl kwargs = ([], Raise TypeError)) /\
  (forall kwargs, anonymize_dict o kwargs = ([], Raise TypeError)).
Proof.
  intros Ho. split.
  - intros rrl kwargs. unfold anonymize_list.
    destruct o; try discriminate; destruct (negb (truthy rrl)); reflexivity.
  - intros kwargs. destruct o; try discriminate; reflexivity.
Qed.

(** X12. Of a node whose value is a dict, [anonymize_dict] reads the
    [recognizer_results] only, never the dict: with another dict as the
    value of the node, calls and outcome are the same; what the dict holds
    and the [recognizer_results] do not describe is not in the output. *)
Theorem anonymize_dict_ignores_dict_value (pre post : list pyobj)
    (key : string) (d1 d2 : pydict) (rr : pyobj) (kwargs : pydict) :
  anonymize_dict
    (PList (pre ++ PDictAnalyzerResult key (PDict d1) rr :: post)) kwargs =
  anonymize_dict
    (PList (pre ++ PDictAnalyzerResult key (PDict d2) rr :: post)) kwargs.
Proof.
  rewrite !anonymize_dict_PList, !anonymize_dict_loop_app.
  apply bind_ext. intros d. now rewrite !anonymize_dict_loop_step.
Qed.

(** X13. Keyword arguments named [texts] or [recognizer_results_list] cannot
    be passed on by [anonymize_dict]: at the first node whose value is an
    iterable other than a dict or a str, the call to [anonymize_list] gets
    two values for one argument and the run ends with [TypeError], with no
    call to the anonymizer for that node or after it. *)
Theorem anonymize_dict_keyword_clash (pre post : list pyobj) (key : string)
    (value rr : pyobj) (kwargs : pydict) (d : pydict) :
  keyword_clash anonymize_list_parameters kwargs = true ->
  isinstance value c_dict = false ->
  isinstance value c_str = false ->
  isinstance_Iterable value = true ->
  outcome (anonymize_dict (PList pre) kwargs) = Ok d ->
  outcome (anonymize_dict
             (PList (pre ++ PDictAnalyzerResult key value rr :: post)) kwargs)
  = Raise TypeError /\
  calls (anonymize_dict
           (PList (pre ++ PDictAnalyzerResult key value rr :: post)) kwargs)
  = calls (anonymize_dict (PList pre) kwargs).
Proof.
  intros Hclash Hd Hs Hit. rewrite !anonymize_dict_PList. intros Hpre.
  rewrite anonymize_dict_loop_app, outcome_bind, calls_bind, Hpre.
  rewrite anonymize_dict_loop_step, outcome_bind, calls_bind.
  unfold anonymize_value, method_call. rewrite Hd, Hs, Hit, Hclash.
  rewrite bind_raise. split; [reflexivity | apply app_nil_r].
Qed.

(** *** Nothing detected *)

Lemma is_empty_list_eq (o : pyobj) : is_empty_list o = true -> o = PList [].
Proof. destruct o as [| | | | | [| x l] | | | | |]; try discriminate. auto. Qed.

Lemma all_empty_lists (l : list pyobj) :
  forallb is_empty_list l = true -> l = repeat (PList []) (List.length l).
Proof.
  induction l as [| x l IH]; simpl; [reflexivity |].
  intros H. apply andb_prop in H as [Hx Hl].
  now rewrite (is_empty_list_eq _ Hx), <- IH.
Qed.

Lemma list_loop_plain ts kwargs acc :
  (forall s, exists res,
      anonymize (PStr s) (PList []) kwargs = Ok res /\
      EngineResult.text res = s) ->
  outcome (anonymize_list_loop
             (combine ts (repeat (PList []) (List.length ts))) kwargs acc)
  = Ok (acc ++ map plain_leaf ts).
Proof.
  intros Hid. revert acc. induction ts as [| text ts IH]; intros acc; simpl.
  - now rewrite app_nil_r.
  - unfold plain_leaf at 1, leaf.
    destruct (type_in text _).
    + rewrite outcome_bind.
      change (outcome (self_anonymize (PStr (str text)) (PList []) kwargs))
        with (anonymize (PStr (str text)) (PList []) kwargs).
      destruct (Hid (str text)) as (res & -> & Htext).
      rewrite IH, Htext, <- app_assoc. reflexivity.
    + rewrite IH, <- app_assoc. reflexivity.
Qed.

Lemma undetected_node_output kwargs r :
  (forall s, exists res,
      anonymize (PStr s) (PList []) kwargs = Ok res /\
      EngineResult.text res = s) ->
  forwardable kwargs = true ->
  undetected r = true ->
  (undetected_nodes (node_recognizer_results r) = true ->
   outcome (anonymize_dict (node_recognizer_results r) kwargs) =
   Ok (store_all [] (items (node_recognizer_results r))
         (map plain (items (node_recognizer_results r))))) ->
  node_output kwargs r (plain r).
Proof.
  intros Hid Hkw Hr Hrec.
  destruct r as [| | | | | | | | | | key value rr]; try discriminate.
  split; [reflexivity |].
  cbn [node_value node_recognizer_results undetected plain] in *.
  unfold anonymize_value.
  destruct (method_call_forwardable kwargs (anonymize_dict rr kwargs) Hkw)
    as [-> _].
  destruct (method_call_forwardable kwargs (anonymize_list value rr kwargs)
              Hkw) as [_ ->].
  destruct (isinstance value c_dict).
  { rewrite outcome_bind.
    destruct rr; try discriminate; rewrite (Hrec Hr); reflexivity. }
  destruct (isinstance value c_str) eqn:Hs.
  { rewrite (is_empty_list_eq _ Hr).
    destruct value; try discriminate.
    rewrite outcome_bind.
    change (outcome (self_anonymize (PStr s) (PList []) kwargs))
      with (anonymize (PStr s) (PList []) kwargs).
    destruct (Hid s) as (res & -> & ->). reflexivity. }
  destruct (isinstance_Iterable value) eqn:Hit; [| reflexivity].
  destruct (iter_Iterable _ Hit) as [ts Hts].
  assert (Hitems : items value = ts) by (unfold items; now rewrite Hts).
  rewrite Hitems in *.
  assert (Hrs : spans_for (List.length ts) rr
                = Ok (repeat (PList []) (List.length ts))).
  { unfold spans_for. destruct (negb (truthy rr)) eqn:Hf; [reflexivity |].
    simpl in Hr. destruct rr; try discriminate.
    apply andb_prop in Hr as [Hall Hlen].
    apply Nat.eqb_eq in Hlen. simpl. rewrite <- Hlen. f_equal.
    now apply all_empty_lists. }
  rewrite outcome_bind, (anonymize_list_eq _ _ _ _ Hts), Hrs, bind_lift_Ok.
  now rewrite (list_loop_plain _ _ _ Hid).
Qed.

Lemma undetected_nodes_outcome kwargs o :
  (forall s, exists res,
      anonymize (PStr s) (PList []) kwargs = Ok res /\
      EngineResult.text res = s) ->
  forwardable kwargs = true ->
  undetected_nodes o = true ->
  outcome (anonymize_dict o kwargs) =
  Ok (store_all [] (items o) (map plain (items o))).
Proof.
  intros Hid Hkw.
  induction o as [o IH] using analyzer_results_ind. intros Ho.
  assert (Hit : iter o = Ok (items o) /\ forallb undetected (items o) = true)
    by (destruct o; try discriminate; auto).
  destruct Hit as [Hit Hall].
  rewrite anonymize_dict_eq, Hit, bind_lift_Ok.
  apply dict_loop_run.
  rewrite forallb_forall in Hall.
  clear Hit Ho. induction (items o) as [| r l IHl]; simpl; constructor.
  - apply undetected_node_output; auto.
    + apply Hall. now left.
    + apply IH. now left.
  - apply IHl.
    + intros r' Hr'. apply IH. now right.
    + intros r' Hr'. apply Hall. now right.
Qed.

(** X14. When the anonymizer returns a text unchanged on an empty span
    collection and nothing was detected in the nodes, at any depth,
    [anonymize_dict] returns the data rebuilt from the nodes: each str as it
    is, each nested dict rebuilt in the same way, each other iterable as the
    list of its elements, those that are bool, int or float in string
    form.  With pairwise distinct keys, that is one entry per node, in the
    order of the nodes. *)
Theorem anonymize_dict_nothing_detected (nodes : list pyobj)
    (kwargs : pydict) :
  (forall s, exists res,
      anonymize (PStr s) (PList []) kwargs = Ok res /\
      EngineResult.text res = s) ->
  forwardable kwargs = true ->
  forallb undetected nodes = true ->
  outcome (anonymize_dict (PList nodes) kwargs) =
  Ok (store_all [] nodes (map plain nodes)) /\
  (NoDup (map node_key nodes) ->
   outcome (anonymize_dict (PList nodes) kwargs) =
   Ok (map (fun node => (node_key node, plain node)) nodes)).
Proof.
  intros Hid Hkw Hall.
  pose proof (undetected_nodes_outcome kwargs (PList nodes) Hid Hkw Hall)
    as Hout.
  change (items (PList nodes)) with nodes in Hout.
  split; [assumption |]. intros Hnd. rewrite Hout. f_equal.
  rewrite store_all_fresh by (try assumption; now rewrite length_map).
  simpl. clear. induction nodes as [| r l IH]; simpl; [reflexivity |].
  now rewrite IH.
Qed.


End BatchAnonymizerEngine.

(** ** The notebook, run on the model *)

Abbreviation run_list :=
  (anonymize_list placeholder_anonymize float_repr_integral).
Abbreviation run_dict :=
  (anonymize_dict placeholder_anonymize float_repr_integral).

Example name_phrases_anonymized :
  outcome (run_list (PList name_phrases) (PList name_phrase_results) []) =
  Ok [PStr "<PERSON> likes this"; PStr "You should talk to <PERSON>";
      PStr "Mary had a little startup"].
Proof. reflexivity. Qed.

Example nested_dict_anonymized :
  outcome (run_dict (PList nested_dict_results) []) =
  Ok [("key_a", PDict [("key_a1", PStr "My phone number is <PHONE_NUMBER>")]);
      ("key_b", PList [PStr "<URL>"]);
      ("key_c", PInt 3);
      ("names", PList [PStr "<PERSON>"; PStr "<PERSON>"; PStr "<PERSON>";
                       PStr "No name here!"])].
Proof. reflexivity. Qed.

(** Were a str handed to [anonymize_list], it would be taken apart. *)
Example str_as_list_of_characters :
  outcome (run_list (PStr "Bond") (PList []) []) =
  Ok [PStr "B"; PStr "o"; PStr "n"; PStr "d"].
Proof. reflexivity. Qed.

(** Keyword arguments that name a parameter of [anonymize_list] cannot be
    passed on to it. *)
Example keyword_clash_raises :
  outcome (run_dict (PList [key_b_result]) [("texts", PNone)]) =
  Raise TypeError.
Proof. reflexivity. Qed.

Example str_of_negative_int :
  str float_repr_integral (PInt (-42)) = "-42".
Proof. reflexivity. Qed.

(** ** Counterexamples and instances *)

(** C1 as stated fails: with three values and one span collection, the call
    raises nothing and returns a list of one element. *)
Lemma length_mismatch_not_rejected :
  [PList [PRecognizerResult "PERSON" 0 6 score_085]] <> [] /\
  List.length [PList [PRecognizerResult "PERSON" 0 6 score_085]]
    <> List.length name_phrases /\
  outcome (run_list (PList name_phrases)
             (PList [PList [PRecognizerResult "PERSON" 0 6 score_085]]) []) =
  Ok [PStr "<PERSON> likes this"].
Proof. split; [discriminate | split; [discriminate | reflexivity]]. Qed.

Lemma anonymize_list_no_length_check_witness :
  exists i text rr,
    i < 2 /\
    nth_error name_phrases i = Some text /\
    nth_error [PList []; malformed_results] i = Some rr /\
    placeholder_anonymize (PStr (str float_repr_integral text)) rr []
      = Raise InvalidParamError.
Proof.
  destruct (anonymize_list_no_length_check placeholder_anonymize
              float_repr_integral name_phrases [PList []; malformed_results]
              [] InvalidParamError)
    as (i & text & rr & Hi & Ht & Hr & _ & He);
    [discriminate | discriminate | reflexivity |].
  exists i, text, rr. auto.
Defined.

(** C2 as stated fails: the integers of a list come out as strings. *)
Lemma integers_come_out_as_strings :
  outcome (run_list (PList integers) (PList no_results) []) =
  Ok [PStr "1"; PStr "2"; PStr "3"] /\
  nth_error [PStr "1"; PStr "2"; PStr "3"] 0 <> nth_error integers 0.
Proof. split; [reflexivity | discriminate]. Qed.

Lemma non_string_leaves_witness :
  (exists d,
     outcome (run_dict (PList nested_dict_results) []) = Ok d /\
     dict_get d "key_c" = Some (PInt 3)) /\
  (exists out res,
     outcome (run_list (PList integers) (PList no_results) []) = Ok out /\
     placeholder_anonymize (PStr "1") (PList []) [] = Ok res /\
     nth_error out 0 = Some (PStr (EngineResult.text res))).
Proof.
  destruct (non_string_leaves placeholder_anonymize float_repr_integral [])
    as [Hdict Hlist].
  split.
  - apply (Hdict [key_a_result; key_b_result] [names_result] "key_c"
             (PInt 3) (PList []));
      [reflexivity | reflexivity | reflexivity | | reflexivity].
    simpl. intros [H | []]. discriminate.
  - destruct (Hlist integers no_results 0 (PInt 1))
      as (out & res & H1 & H2 & H3 & _);
      [reflexivity | reflexivity | right; simpl; lia | reflexivity |].
    exists out, res. auto.
Defined.

Lemma anonymize_list_same_shape_witness :
  exists out,
    outcome (run_list (PList name_phrases) (PList name_phrase_results) [])
      = Ok out /\
    List.length out = 3.
Proof.
  destruct (anonymize_list_same_shape placeholder_anonymize
              float_repr_integral name_phrases name_phrase_results [])
    as [_ H]; [right; reflexivity |].
  destruct H as (out & H1 & H2 & _); [reflexivity |].
  exists out. auto.
Defined.

Lemma anonymize_list_truncates_witness :
  exists out,
    outcome (run_list (PList name_phrases)
               (PList [PList [PRecognizerResult "PERSON" 0 6 score_085]]) [])
      = Ok out /\
    List.length out = 1.
Proof.
  destruct (anonymize_list_truncates placeholder_anonymize
              float_repr_integral name_phrases
              [PList [PRecognizerResult "PERSON" 0 6 score_085]] [])
    as [_ H]; [discriminate | discriminate |].
  destruct H as (out & H1 & H2 & _); [reflexivity |].
  exists out. auto.
Defined.

Lemma placeholder_anonymize_no_spans (s : string) :
  exists res,
    placeholder_anonymize (PStr s) (PList []) [] = Ok res /\
    EngineResult.text res = s.
Proof. eexists. split; reflexivity. Defined.

Lemma anonymize_list_no_detections_witness :
  exists out,
    outcome (run_list (PList (PInt 7 :: name_phrases)) (PList no_results) [])
      = Ok out /\
    forall i o s,
      nth_error out i = Some o ->
      nth_error (PInt 7 :: name_phrases) i = Some (PStr s) -> o = PStr s.
Proof.
  destruct (anonymize_list_no_detections placeholder_anonymize
              float_repr_integral (PInt 7 :: name_phrases) no_results [])
    as (out & H1 & _ & H2).
  - exact placeholder_anonymize_no_spans.
  - right. repeat constructor.
  - exists out. auto.
Defined.

Lemma anonymize_dict_same_keys_witness :
  exists d,
    outcome (run_dict (PList nested_dict_results) []) = Ok d /\
    keys d = ["key_a"; "key_b"; "key_c"; "names"].
Proof.
  destruct (anonymize_dict_same_keys placeholder_anonymize
              float_repr_integral (PList nested_dict_results) [])
    as [_ H]; [reflexivity | reflexivity | |].
  - simpl. repeat constructor; simpl; intuition discriminate.
  - destruct H as (d & H1 & H2 & _); [reflexivity |].
    exists d. auto.
Defined.

Lemma anonymize_dict_nested_witness :
  exists d resp,
    outcome (run_dict (PList nested_dict_results) []) = Ok d /\
    outcome (run_dict (PList [key_a1_result]) []) = Ok resp /\
    dict_get d "key_a" = Some (PDict resp).
Proof.
  destruct (anonymize_dict_nested placeholder_anonymize float_repr_integral
              [] [key_b_result; key_c_result; names_result] "key_a"
              [("key_a1", PStr "My phone number is 212-121-1424")]
              (PList [key_a1_result]) [])
    as (d & resp & H1 & H2 & H3 & _);
    [reflexivity | reflexivity | | reflexivity |].
  - simpl. intuition discriminate.
  - exists d, resp. auto.
Defined.

Lemma anonymize_dict_iterable_as_list_witness :
  exists d out,
    outcome (run_dict (PList nested_dict_results) []) = Ok d /\
    outcome (run_list (PSet [PStr "www.abc.com"])
               (PList [PList [PRecognizerResult "URL" 0 11 score_085]]) [])
      = Ok out /\
    dict_get d "key_b" = Some (PList out).
Proof.
  destruct (anonymize_dict_iterable_as_list placeholder_anonymize
              float_repr_integral [key_a_result]
              [key_c_result; names_result] "key_b"
              (PSet [PStr "www.abc.com"])
              (PList [PList [PRecognizerResult "URL" 0 11 score_085]]) [])
    as (d & out & v & H1 & H2 & H3 & -> & _);
    [reflexivity | reflexivity | reflexivity | reflexivity | reflexivity
    | | reflexivity |].
  - simpl. intuition discriminate.
  - exists d, out. auto.
Defined.

Lemma anonymize_dict_dispatch_witness :
  exists d,
    outcome (run_dict (PList [key_c_result; key_a1_result; key_a_result]) [])
      = Ok d /\
    calls (run_dict (PList [key_c_result; key_a1_result; key_a_result]) []) =
    calls (run_dict (PList [key_c_result]) [])
    ++ [mkCall (PStr "My phone number is 212-121-1424")
          (PList [PRecognizerResult "PHONE_NUMBER" 19 31 score_075]) []]
    ++ calls (run_dict (PList [key_a_result]) []).
Proof.
  destruct (anonymize_dict_dispatch placeholder_anonymize float_repr_integral
              [key_c_result] [key_a_result] "key_a1"
              (PStr "My phone number is 212-121-1424")
              (PList [PRecognizerResult "PHONE_NUMBER" 19 31 score_075]) [])
    as (d & H1 & _ & H2); [reflexivity | reflexivity | | reflexivity |].
  - simpl. intuition discriminate.
  - exists d. split; [exact H1 |]. now apply (H2 _ eq_refl).
Defined.

Lemma anonymizer_error_aborts_witness :
  outcome (run_list (PList name_phrases)
             (PList [PList []; malformed_results; PList []]) [])
    = Raise InvalidParamError /\
  outcome (run_dict
             (PList [key_c_result;
                     PDictAnalyzerResult "outer" (PDict [])
                       (PList [PDictAnalyzerResult "inner"
                                 (PStr "You should talk to Mike")
                                 malformed_results]);
                     names_result]) [])
    = Raise InvalidParamError.
Proof.
  destruct (anonymizer_error_aborts placeholder_anonymize float_repr_integral
              malformed_call InvalidParamError eq_refl) as [Hlist Hdict].
  split.
  - apply Hlist. simpl. auto.
  - apply Hdict. simpl. auto.
Defined.

(** ** Instances of the further properties *)

Lemma anonymize_list_without_spans_witness :
  exists out,
    outcome (run_list (PTuple name_phrases) PNone []) = Ok out /\
    List.length out = 3.
Proof.
  destruct (anonymize_list_without_spans placeholder_anonymize
              float_repr_integral (PTuple name_phrases) PNone []
              name_phrases) as [_ H]; [reflexivity | reflexivity |].
  destruct H as (out & H1 & H2 & _); [reflexivity |].
  exists out. auto.
Defined.

Lemma anonymize_list_returns_no_number_witness :
  type_in (PStr "1") [c_bool; c_int; c_float] = false /\
  (type (PStr "1") = c_str \/ In (PStr "1") (items (PList integers))).
Proof.
  apply (anonymize_list_returns_no_number placeholder_anonymize
           float_repr_integral (PList integers) (PList no_results) []
           [PStr "1"; PStr "2"; PStr "3"]);
    [reflexivity | now left].
Defined.

Lemma anonymize_list_calls_witness :
  calls (run_list (PList (PNone :: name_phrases))
           (PList (PList [] :: name_phrase_results)) []) =
  [mkCall (PStr "Morris likes this")
     (PList [PRecognizerResult "PERSON" 0 6 score_085]) [];
   mkCall (PStr "You should talk to Mike")
     (PList [PRecognizerResult "PERSON" 19 23 score_085]) [];
   mkCall (PStr "Mary had a little startup") (PList []) []].
Proof.
  exact (anonymize_list_calls placeholder_anonymize float_repr_integral
           (PNone :: name_phrases) (PList [] :: name_phrase_results) []
           [PNone; PStr "<PERSON> likes this";
            PStr "You should talk to <PERSON>";
            PStr "Mary had a little startup"] eq_refl).
Defined.

Lemma anonymize_list_passes_other_classes_witness :
  run_list (PList objects_in_list)
    (PList [PList [PRecognizerResult "PERSON" 0 5 score_085]; PList []]) []
  = ([], Ok objects_in_list).
Proof.
  apply (anonymize_list_passes_other_classes placeholder_anonymize
           float_repr_integral objects_in_list).
  - repeat constructor.
  - right. reflexivity.
Defined.

Lemma no_call_after_raise_witness :
  calls (run_list (PList name_phrases)
           (PList [PList []; malformed_results; PList []]) [])
  = [mkCall (PStr "Morris likes this") (PList []) []] ++ malformed_call :: []
  /\ @nil call = [].
Proof.
  split; [reflexivity |].
  destruct (no_call_after_raise placeholder_anonymize float_repr_integral
              malformed_call InvalidParamError
              [mkCall (PStr "Morris likes this") (PList []) []] []
              eq_refl) as [Hlist _].
  apply (Hlist (PList name_phrases)
           (PList [PList []; malformed_results; PList []]) []).
  reflexivity.
Defined.

Lemma calls_pass_str_and_kwargs_witness :
  type (PStr "My phone number is 212-121-1424") = c_str /\
  [("operators", PNone)] = [("operators", PNone)].
Proof.
  apply (calls_pass_str_and_kwargs placeholder_anonymize float_repr_integral
           [("operators", PNone)]
           (mkCall (PStr "My phone number is 212-121-1424")
              (PList [PRecognizerResult "PHONE_NUMBER" 19 31 score_075])
              [("operators", PNone)])).
  right. exists (PList nested_dict_results). simpl. auto.
Defined.

Lemma anonymize_dict_not_a_node_witness :
  outcome (run_dict nested_dict []) = Raise AttributeError /\
  calls (run_dict nested_dict []) = calls (run_dict (PList []) []).
Proof.
  apply (anonymize_dict_not_a_node placeholder_anonymize float_repr_integral
           nested_dict [] [PStr "key_b"; PStr "key_c"; PStr "names"]
           (PStr "key_a") [] []);
    [reflexivity | discriminate | reflexivity].
Defined.

Lemma anonymize_dict_repeated_keys_witness :
  keys [("a", PInt 2); ("b", PStr "Mike")] = ["a"; "b"] /\
  NoDup (keys [("a", PInt 2); ("b", PStr "Mike")]).
Proof.
  destruct (anonymize_dict_repeated_keys placeholder_anonymize
              float_repr_integral repeated_key_results []
              [("a", PInt 2); ("b", PStr "Mike")] eq_refl)
    as (Hnd & Hkeys & _).
  split; [exact Hkeys | exact Hnd].
Defined.

Lemma anonymize_dict_app_witness :
  outcome (run_dict (PList ([key_a_result] ++ [key_b_result; key_c_result]))
             []) =
  Ok ([("key_a",
        PDict [("key_a1", PStr "My phone number is <PHONE_NUMBER>")])]
      ++ [("key_b", PList [PStr "<URL>"]); ("key_c", PInt 3)]).
Proof.
  apply (anonymize_dict_app placeholder_anonymize float_repr_integral
           [key_a_result] [key_b_result; key_c_result] []);
    [reflexivity | reflexivity |].
  intros k [<- | [<- | []]] [H | []]; discriminate H.
Defined.

Lemma anonymize_list_app_witness :
  outcome (run_list (PList (integers ++ name_phrases))
             (PList (no_results ++ name_phrase_results)) []) =
  Ok ([PStr "1"; PStr "2"; PStr "3"]
      ++ [PStr "<PERSON> likes this"; PStr "You should talk to <PERSON>";
          PStr "Mary had a little startup"]).
Proof.
  apply (anonymize_list_app placeholder_anonymize float_repr_integral
           integers name_phrases no_results name_phrase_results []);
    [reflexivity | discriminate | reflexivity | reflexivity].
Defined.

Lemma not_iterable_TypeError_witness :
  run_list key_c_result (PList []) [] = ([], Raise TypeError) /\
  run_dict key_c_result [] = ([], Raise TypeError).
Proof.
  destruct (not_iterable_TypeError placeholder_anonymize float_repr_integral
              key_c_result eq_refl) as [Hlist Hdict].
  split; [apply Hlist | apply Hdict].
Defined.

Lemma anonymize_dict_keyword_clash_witness :
  outcome (run_dict (PList ([key_c_result] ++ key_b_result :: [names_result]))
             [("texts", PNone)]) = Raise TypeError /\
  calls (run_dict (PList ([key_c_result] ++ key_b_result :: [names_result]))
           [("texts", PNone)]) =
  calls (run_dict (PList [key_c_result]) [("texts", PNone)]).
Proof.
  apply (anonymize_dict_keyword_clash placeholder_anonymize
           float_repr_integral [key_c_result] [names_result] "key_b"
           (PSet [PStr "www.abc.com"])
           (PList [PList [PRecognizerResult "URL" 0 11 score_085]])
           [("texts", PNone)] [("key_c", PInt 3)]);
    reflexivity.
Defined.

Lemma anonymize_dict_nothing_detected_witness :
  outcome (run_dict (PList nested_dict_no_results) []) =
  Ok [("key_a",
       PDict [("key_a1", PStr "My phone number is 212-121-1424")]);
      ("key_b", PList [PStr "www.abc.com"]);
      ("key_c", PInt 3);
      ("names", PList [PStr "James Bond"; PStr "Clark Kent";
                       PStr "Hakeem Olajuwon"; PStr "No name here!"])].
Proof.
  destruct (anonymize_dict_nothing_detected placeholder_anonymize
              float_repr_integral nested_dict_no_results [])
    as [_ H]; [exact placeholder_anonymize_no_spans | reflexivity
              | reflexivity |].
  apply H. simpl. repeat constructor; simpl; intuition discriminate.
Defined.
